(** * Announcements router of the High School Management System API

    A shallow embedding of [src/backend/routers/announcements.py]: the five
    FastAPI handlers, run against a model of the two MongoDB collections
    they use ([announcements_collection] and [teachers_collection]).

    - A BSON document is a finite map from field names to values.
    - A collection is the list of its documents in natural (insertion) order.
    - A handler is a computation in a state-and-exception monad over the
      [world]: the database and the log of the store calls made so far.
    - The clock reading ([datetime.utcnow().isoformat()]) and the ObjectId
      the driver generates on insert are inputs of the handlers.
    - The two library parsers the handlers call, [ObjectId(...)] of bson and
      [datetime.fromisoformat], are parameters of the development: nothing
      proved here depends on which strings they accept.
    - The [print] calls of the error paths write to stdout only and are
      left out.
    - A store call always answers: a store that fails, or that changes
      between two calls of one handler, is outside the model, and so are
      the 500 answers that only such a store causes. *)

From Stdlib Require Import ZArith Ascii String List.
From stdpp Require Import base option list sorting strings gmap.

Local Open Scope string_scope.
Local Open Scope list_scope.
Local Open Scope Z_scope.

(** ** Strings *)

(** [s.replace('Z', '+00:00')]: every occurrence of the one-character
    pattern is replaced. *)
Fixpoint replace_Z (s : string) : string :=
  match s with
  | EmptyString => EmptyString
  | String c rest =>
      if Ascii.eqb c "Z"%char then "+00:00" +:+ replace_Z rest
      else String c (replace_Z rest)
  end.

(** Lexicographic order on strings, byte by byte, a proper prefix first:
    the order of Python's [str] and of MongoDB's default (binary)
    collation. *)
Definition str_le (s t : string) : Prop := String.leb s t = true.

(** ** BSON values and documents *)

(** [bson.ObjectId], kept as the 24 hexadecimal digits [str()] prints. *)
Record ObjectId := Oid { oid_hex : string }.

Inductive value :=
| VNull                     (* None / null *)
| VStr (s : string)
| VOid (o : ObjectId).

Abbreviation document := (gmap string value).

Global Instance ObjectId_eq_dec : EqDecision ObjectId.
Proof. solve_decision. Defined.

Global Instance value_eq_dec : EqDecision value.
Proof. solve_decision. Defined.

(** Python's [str(x)] on the values a document holds. *)
Definition str (v : value) : string :=
  match v with
  | VNull => "None"
  | VStr s => s
  | VOid o => oid_hex o
  end.

(** An [Optional[str]] argument stored in a document. *)
Definition of_optional (o : option string) : value :=
  match o with
  | None => VNull
  | Some s => VStr s
  end.

(** Python truthiness of an [Optional[str]]: [None] and [""] are falsy. *)
Definition truthy_str (o : option string) : bool :=
  match o with
  | None => false
  | Some s => negb (String.eqb s "")
  end.

(** Python truthiness of what [find_one] returns: [None] and the empty
    dict are falsy. *)
Definition truthy_doc (o : option document) : bool :=
  match o with
  | None => false
  | Some d => negb (bool_decide (d = ∅))
  end.

(** ** The query language of the store *)

(** The value a query sees at a field: a missing field reads as null. *)
Definition field (d : document) (f : string) : value :=
  default VNull (d !! f).

(** BSON comparison order across types: null, then strings, then
    ObjectIds.  Within a type, strings and ObjectIds compare bytewise. *)
Definition type_rank (v : value) : N :=
  match v with
  | VNull => 0%N
  | VStr _ => 1%N
  | VOid _ => 2%N
  end.

Definition payload (v : value) : string :=
  match v with
  | VNull => ""
  | VStr s => s
  | VOid o => oid_hex o
  end.

Definition bson_compare (a b : value) : comparison :=
  match N.compare (type_rank a) (type_rank b) with
  | Eq => String.compare (payload a) (payload b)
  | c => c
  end.

Definition bson_leb (a b : value) : bool :=
  match bson_compare a b with
  | Gt => false
  | _ => true
  end.

(** Comparison operators only match values of the operand's type
    (type bracketing). *)
Definition same_type (a b : value) : bool :=
  N.eqb (type_rank a) (type_rank b).

Inductive condition :=
| CEq (v : value)           (* {"f": v} *)
| CGte (v : value)          (* {"f": {"$gte": v}} *)
| CLte (v : value).         (* {"f": {"$lte": v}} *)

#[local] Set Warnings "-register-all".

(** A filter document is the conjunction of its clauses; [{}] is [[]]. *)
Inductive clause :=
| Field (f : string) (c : condition)
| And (fs : list (list clause))      (* {"$and": [...]} *)
| Or (fs : list (list clause)).      (* {"$or": [...]}  *)

Abbreviation filter := (list clause).

Definition condition_matches (x : value) (c : condition) : bool :=
  match c with
  | CEq v => bool_decide (x = v)
  | CGte v => same_type x v && bson_leb v x
  | CLte v => same_type x v && bson_leb x v
  end.

Fixpoint clause_matches (d : document) (c : clause) : bool :=
  match c with
  | Field f k => condition_matches (field d f) k
  | And fs => forallb (fun q => forallb (clause_matches d) q) fs
  | Or fs => existsb (fun q => forallb (clause_matches d) q) fs
  end.

Definition matches (q : filter) (d : document) : bool :=
  forallb (clause_matches d) q.

(** The filter [{"_id": v}]. *)
Definition by_id (v : value) : filter := [Field "_id" (CEq v)].

(** ** Collections *)

(** Modelled from the spec: the two collections come from the package's
    [database] module, which is not among the sources.  They are modelled
    as the spec's document store: "filter-based find (with $and/$or/
    comparison semantics, sort), insert-one, update-one (field-level $set),
    delete-one, each returning a count/result descriptor".  A collection
    is the list of its documents, oldest first. *)

(** [find(q)]: the matching documents in natural order. *)
Definition coll_find (q : filter) (c : list document) : list document :=
  List.filter (matches q) c.

(** [find_one(q)]: the first matching document, or [None]. *)
Definition coll_find_one (q : filter) (c : list document) : option document :=
  List.find (matches q) c.

(** [update_one(q, {"$set": upd})]: the fields of [upd] overwrite those of
    the first matching document; the result is the new collection and
    [matched_count]. *)
Fixpoint coll_update_one (q : filter) (upd : document) (c : list document)
  : list document * Z :=
  match c with
  | [] => ([], 0)
  | d :: rest =>
      if matches q d then ((upd ∪ d) :: rest, 1)
      else let '(rest', n) := coll_update_one q upd rest in (d :: rest', n)
  end.

(** [delete_one(q)]: the first matching document is removed; the result is
    the new collection and [deleted_count]. *)
Fixpoint coll_delete_one (q : filter) (c : list document)
  : list document * Z :=
  match c with
  | [] => ([], 0)
  | d :: rest =>
      if matches q d then (rest, 1)
      else let '(rest', n) := coll_delete_one q rest in (d :: rest', n)
  end.

(** [sort(f, -1)]: descending on the field, a missing field as null. *)
Definition desc_by (f : string) (a b : document) : Prop :=
  bson_leb (field b f) (field a f) = true.

Global Instance desc_by_dec f a b : Decision (desc_by f a b).
Proof. unfold desc_by. apply _. Defined.

Definition sort_desc (f : string) (c : list document) : list document :=
  merge_sort (desc_by f) c.

(** [insert_one(d)]: the driver adds a generated ["_id"] when the document
    has none, the store refuses an ["_id"] it already holds
    (DuplicateKeyError, [None] here); the result is the new collection and
    [inserted_id]. *)
Definition coll_insert_one (generated : ObjectId) (d : document)
    (c : list document) : option (list document * value) :=
  let d' := match d !! "_id" with
            | Some _ => d
            | None => <["_id" := VOid generated]> d
            end in
  let inserted_id := field d' "_id" in
  if existsb (fun e => bool_decide (e !! "_id" = Some inserted_id)) c
  then None
  else Some (c ++ [d'], inserted_id).

(** ** The world the handlers run in *)

Inductive collection := announcements_collection | teachers_collection.

Inductive call := Find | FindOne | InsertOne | UpdateOne | DeleteOne.

(** Modelled from the spec: the contents of [announcements_collection]
    and of [teachers_collection], the "single collection of announcement
    records" and the "second collection (user/teacher records)". *)
Record database := Database {
  announcements : list document;
  teachers : list document;
}.

(** The database, and the store calls made so far, oldest first. *)
Record world := World {
  db : database;
  log : list (collection * call);
}.

Definition get_coll (c : collection) (b : database) : list document :=
  match c with
  | announcements_collection => announcements b
  | teachers_collection => teachers b
  end.

Definition set_coll (c : collection) (l : list document) (b : database)
  : database :=
  match c with
  | announcements_collection => Database l (teachers b)
  | teachers_collection => Database (announcements b) l
  end.

(** ** Exceptions and the handler monad *)

Inductive exn :=
| HTTPException (status_code : Z) (detail : string)
| ValueError
| InvalidId
| KeyError (key : string)
| TypeError
| DuplicateKeyError.

Inductive outcome (A : Type) :=
| Return (a : A)
| Raise (e : exn).
Arguments Return {A} a.
Arguments Raise {A} e.

Definition M (A : Type) : Type := world → outcome A * world.

Global Instance M_ret : MRet M := λ A a w, (Return a, w).

Global Instance M_bind : MBind M := λ A B f m w,
  match m w with
  | (Return a, w') => f a w'
  | (Raise e, w') => (Raise e, w')
  end.

Definition raise {A} (e : exn) : M A := λ w, (Raise e, w).

(** [try: m except ... : h e] *)
Definition try_except {A} (m : M A) (h : exn → M A) : M A := λ w,
  match m w with
  | (Return a, w') => (Return a, w')
  | (Raise e, w') => h e w'
  end.

(** A store call: recorded in the log, then run on the collection. *)
Definition store_call {A} (c : collection) (k : call)
    (f : list document → outcome A * list document) : M A := λ w,
  let '(r, l) := f (get_coll c (db w)) in
  (r, World (set_coll c l (db w)) (log w ++ [(c, k)])).

Definition find (c : collection) (q : filter) : M (list document) :=
  store_call c Find (λ l, (Return (coll_find q l), l)).

Definition find_sorted (c : collection) (q : filter) (f : string)
  : M (list document) :=
  store_call c Find (λ l, (Return (sort_desc f (coll_find q l)), l)).

Definition find_one (c : collection) (q : filter) : M (option document) :=
  store_call c FindOne (λ l, (Return (coll_find_one q l), l)).

Definition insert_one (c : collection) (generated : ObjectId) (d : document)
  : M value :=
  store_call c InsertOne (λ l,
    match coll_insert_one generated d l with
    | Some (l', inserted_id) => (Return inserted_id, l')
    | None => (Raise DuplicateKeyError, l)
    end).

Definition update_one (c : collection) (q : filter) (upd : document) : M Z :=
  store_call c UpdateOne (λ l,
    let '(l', matched_count) := coll_update_one q upd l in
    (Return matched_count, l')).

Definition delete_one (c : collection) (q : filter) : M Z :=
  store_call c DeleteOne (λ l,
    let '(l', deleted_count) := coll_delete_one q l in
    (Return deleted_count, l')).

(** [d[k]] *)
Definition getitem (d : document) (k : string) : M value :=
  match d !! k with
  | Some v => mret v
  | None => raise (KeyError k)
  end.

(** [announcement["_id"] = str(announcement["_id"])] *)
Definition stringify_id (d : document) : M document :=
  v ← getitem d "_id";
  mret (<["_id" := VStr (str v)]> d).

(** ** The library parsers *)

(** What the handlers use of bson and of the standard library:
    [ObjectId(s)] (raising InvalidId, [None] here) and
    [datetime.fromisoformat(s)] (raising ValueError, [None] here). *)
Class Libraries := {
  datetime : Type;
  fromisoformat : string → option datetime;
  ObjectId_of_str : string → option ObjectId;
}.

Section handlers.
Context `{Libraries}.

Definition new_ObjectId (s : string) : M ObjectId :=
  match ObjectId_of_str s with
  | Some o => mret o
  | None => raise InvalidId
  end.

Definition datetime_fromisoformat (s : string) : M datetime :=
  match fromisoformat s with
  | Some t => mret t
  | None => raise ValueError
  end.

(** The "Verify user exists and is authenticated" block. *)
Definition verify_user (username : string) : M unit :=
  teacher ← find_one teachers_collection (by_id (VStr username));
  if negb (truthy_doc teacher)
  then raise (HTTPException 401 "Unauthorized")
  else mret tt.

(** The "Validate announcement ID" block. *)
Definition validate_id (announcement_id : string) : M ObjectId :=
  try_except (new_ObjectId announcement_id)
    (λ _, raise (HTTPException 400 "Invalid announcement ID")).

(** The "Validate dates" block. *)
Definition validate_dates (end_date : string) (start_date : option string)
  : M unit :=
  try_except
    (_ ← datetime_fromisoformat (replace_Z end_date);
     if truthy_str start_date
     then _ ← datetime_fromisoformat (replace_Z (default "" start_date));
          mret tt
     else mret tt)
    (λ e, match e with
          | ValueError => raise (HTTPException 400 "Invalid date format")
          | _ => raise e
          end).

(** [except HTTPException: raise], then
    [except Exception: raise HTTPException(500, detail)]. *)
Definition reraising {A} (detail : string) (m : M A) : M A :=
  try_except m
    (λ e, match e with
          | HTTPException _ _ => raise e
          | _ => raise (HTTPException 500 detail)
          end).

(** [except Exception: raise HTTPException(500, detail)] alone. *)
Definition failing_500 {A} (detail : string) (m : M A) : M A :=
  try_except m (λ _, raise (HTTPException 500 detail)).

(** The filter of [get_active_announcements]. *)
Definition active_filter (current_time : string) : filter :=
  [And [ [Field "end_date" (CGte (VStr current_time))];
         [Or [ [Field "start_date" (CEq VNull)];
               [Field "start_date" (CLte (VStr current_time))] ]] ]].

(** The dict [create_announcement] builds and inserts. *)
Definition new_announcement (current_time message end_date username : string)
    (start_date : option string) : document :=
  {[ "message" := VStr message;
     "start_date" := of_optional start_date;
     "end_date" := VStr end_date;
     "created_by" := VStr username;
     "created_at" := VStr current_time ]}.

(** The dict [update_announcement] passes to ["$set"]. *)
Definition update_data (message end_date : string)
    (start_date : option string) : document :=
  {[ "message" := VStr message;
     "start_date" := of_optional start_date;
     "end_date" := VStr end_date ]}.

Definition get_active_announcements (current_time : string)
  : M (list document) :=
  failing_500 "Failed to fetch announcements"
    (announcements ← find announcements_collection
                        (active_filter current_time);
     mapM stringify_id announcements).

Definition get_all_announcements : M (list document) :=
  failing_500 "Failed to fetch announcements"
    (announcements ← find_sorted announcements_collection [] "created_at";
     mapM stringify_id announcements).

(** [insert_one] also writes the generated ["_id"] into the caller's dict;
    the assignment that follows overwrites it with its string, and the
    store keeps its own copy of the document. *)
Definition create_announcement (current_time : string) (generated : ObjectId)
    (message end_date username : string) (start_date : option string)
  : M document :=
  reraising "Failed to create announcement"
    (_ ← verify_user username;
     _ ← validate_dates end_date start_date;
     let announcement :=
       new_announcement current_time message end_date username start_date in
     inserted_id ← insert_one announcements_collection generated announcement;
     mret (<["_id" := VStr (str inserted_id)]> announcement)).

Definition update_announcement (announcement_id message end_date
    username : string) (start_date : option string) : M document :=
  reraising "Failed to update announcement"
    (_ ← verify_user username;
     obj_id ← validate_id announcement_id;
     _ ← validate_dates end_date start_date;
     matched_count ← update_one announcements_collection
                        (by_id (VOid obj_id))
                        (update_data message end_date start_date);
     if bool_decide (matched_count = 0)
     then raise (HTTPException 404 "Announcement not found")
     else
       found ← find_one announcements_collection (by_id (VOid obj_id));
       match found with
       | None => raise TypeError
       | Some announcement => stringify_id announcement
       end).

Definition delete_announcement (announcement_id username : string)
  : M document :=
  reraising "Failed to delete announcement"
    (_ ← verify_user username;
     obj_id ← validate_id announcement_id;
     deleted_count ← delete_one announcements_collection
                        (by_id (VOid obj_id));
     if bool_decide (deleted_count = 0)
     then raise (HTTPException 404 "Announcement not found")
     else mret {[ "message" := VStr "Announcement deleted successfully" ]}).

(** ** Vocabulary of the properties *)

(** The date passes the handlers' check: it parses once its [Z]s are
    rewritten. *)
Definition date_parses (s : string) : Prop :=
  is_Some (fromisoformat (replace_Z s)).

(** Both dates pass: [end_date], and [start_date] when it is truthy. *)
Definition dates_pass (end_date : string) (start_date : option string)
  : Prop :=
  date_parses end_date ∧
  ∀ s, start_date = Some s → s ≠ "" → date_parses s.

End handlers.

(** The store keeps an ["_id"] in every document. *)
Definition has_id (d : document) : Prop := is_Some (d !! "_id").

(** The document with its ["_id"] rendered as a string: what the read
    handlers return for [d]. *)
Definition with_str_id (d : document) : document :=
  <["_id" := VStr (str (field d "_id"))]> d.

(** A user record with this identifier exists. *)
Definition has_user (username : string) (c : list document) : Prop :=
  ∃ d, d ∈ c ∧ d !! "_id" = Some (VStr username).

(** A document of the collection carries this identifier. *)
Definition has_oid (o : ObjectId) (c : list document) : Prop :=
  ∃ d, d ∈ c ∧ d !! "_id" = Some (VOid o).


(** The world after one more logged call that left the data alone. *)
Definition logged (c : collection) (k : call) (w : world) : world :=
  World (db w) (log w ++ [(c, k)]).

(** The field is missing or holds null. *)
Definition absent (d : document) (f : string) : Prop :=
  d !! f = None ∨ d !! f = Some VNull.

(** [a] is active at [now]: its [end_date] is a string not before [now],
    and its [start_date] is absent or a string not after [now]. *)
Definition active_at (now : string) (a : document) : Prop :=
  (∃ e, a !! "end_date" = Some (VStr e) ∧ str_le now e) ∧
  (absent a "start_date" ∨
   ∃ s, a !! "start_date" = Some (VStr s) ∧ str_le s now).

(** [old] is the first document of the collection with identifier [o]. *)
Definition first_with_oid (o : ObjectId) (c : list document) (i : nat)
    (old : document) : Prop :=
  c !! i = Some old ∧ old !! "_id" = Some (VOid o) ∧
  ∀ j e, (j < i)%nat → c !! j = Some e → e !! "_id" ≠ Some (VOid o).

(** The world after a successful [create_announcement]. *)
Definition created (now : string) (g : ObjectId)
    (message end_date username : string) (start_date : option string)
    (w : world) : world :=
  World
    (Database
       (announcements (db w) ++
        [<["_id" := VOid g]>
           (new_announcement now message end_date username start_date)])
       (teachers (db w)))
    (log w ++ [(teachers_collection, FindOne);
               (announcements_collection, InsertOne)]).

(** The world after a successful [update_announcement] that found [old]
    at position [i]. *)
Definition updated (i : nat) (old : document) (message end_date : string)
    (start_date : option string) (w : world) : world :=
  World
    (Database
       (<[i := update_data message end_date start_date ∪ old]>
          (announcements (db w)))
       (teachers (db w)))
    (log w ++ [(teachers_collection, FindOne);
               (announcements_collection, UpdateOne);
               (announcements_collection, FindOne)]).

(** The world after a successful [delete_announcement] that found the
    record at position [i]. *)
Definition deleted (i : nat) (w : world) : world :=
  World
    (Database (delete i (announcements (db w))) (teachers (db w)))
    (log w ++ [(teachers_collection, FindOne);
               (announcements_collection, DeleteOne)]).

(** The identifiers of a collection, in its order. *)
Definition ids (c : list document) : list (option value) :=
  (λ d : document, d !! "_id") <$> c.

(** What the store guarantees of a collection: every document has an
    ["_id"] and no two documents share one. *)
Definition store_ok (c : list document) : Prop :=
  Forall has_id c ∧ NoDup (ids c).

(** From [w] to [w'] the user collection was only read, once and first:
    the store calls made are the FindOne on it, then at most two calls,
    all on the announcement collection. *)
Definition user_check_then_announcements (w w' : world) : Prop :=
  teachers (db w') = teachers (db w) ∧
  ∃ rest,
    log w' = log w ++ (teachers_collection, FindOne) :: rest ∧
    (length rest ≤ 2)%nat ∧
    Forall (λ c, c.1 = announcements_collection) rest.

(** The status a failure reports, when it is an [HTTPException]. *)
Definition http_status (e : exn) : option Z :=
  match e with
  | HTTPException status_code _ => Some status_code
  | _ => None
  end.

(** The string has a [Z] in it. *)
Fixpoint has_Z (s : string) : bool :=
  match s with
  | EmptyString => false
  | String c rest => Ascii.eqb c "Z"%char || has_Z rest
  end.

(** ** An instance to run the handlers on *)

Definition is_digit (c : ascii) : bool :=
  let n := N_of_ascii c in (48 <=? n)%N && (n <=? 57)%N.

Definition is_hex (c : ascii) : bool :=
  let n := N_of_ascii c in
  is_digit c || ((65 <=? n)%N && (n <=? 70)%N)
             || ((97 <=? n)%N && (n <=? 102)%N).

Definition lower (c : ascii) : ascii :=
  let n := N_of_ascii c in
  if (65 <=? n)%N && (n <=? 90)%N then ascii_of_N (n + 32) else c.

Fixpoint string_forallb (p : ascii → bool) (s : string) : bool :=
  match s with
  | EmptyString => true
  | String c rest => p c && string_forallb p rest
  end.

Fixpoint string_map (f : ascii → ascii) (s : string) : string :=
  match s with
  | EmptyString => EmptyString
  | String c rest => String (f c) (string_map f rest)
  end.

(** [s] has the shape [pat]: a [d] of the pattern stands for any digit,
    every other character for itself. *)
Fixpoint has_shape (pat s : string) : bool :=
  match pat, s with
  | EmptyString, EmptyString => true
  | String p pat', String c s' =>
      (if Ascii.eqb p "d"%char then is_digit c else Ascii.eqb p c)
      && has_shape pat' s'
  | _, _ => false
  end.

(** [ObjectId(s)] accepts 24 hexadecimal digits; [fromisoformat(s)] accepts
    the shapes [YYYY-MM-DD], [YYYY-MM-DDTHH:MM:SS] and
    [YYYY-MM-DDTHH:MM:SS+HH:MM]. *)
Definition sample_ObjectId (s : string) : option ObjectId :=
  if (String.length s =? 24)%nat && string_forallb is_hex s
  then Some (Oid (string_map lower s))
  else None.

Definition sample_fromisoformat (s : string) : option string :=
  if has_shape "dddd-dd-dd" s
     || has_shape "dddd-dd-ddTdd:dd:dd" s
     || has_shape "dddd-dd-ddTdd:dd:dd+dd:dd" s
  then Some s
  else None.

Definition sample_libraries : Libraries := {|
  datetime := string;
  fromisoformat := sample_fromisoformat;
  ObjectId_of_str := sample_ObjectId;
|}.

(** A small database: one teacher, two announcements. *)
Definition oid1 : ObjectId := Oid "65a000000000000000000001".
Definition oid2 : ObjectId := Oid "65a000000000000000000002".
Definition oid3 : ObjectId := Oid "65a000000000000000000003".

Definition sample_teacher : document :=
  {[ "_id" := VStr "mrodriguez"; "display_name" := VStr "Ms. Rodriguez" ]}.

Definition sample_old : document :=
  {[ "_id" := VOid oid1;
     "message" := VStr "Term starts";
     "start_date" := VNull;
     "end_date" := VStr "2024-09-01T00:00:00";
     "created_by" := VStr "mrodriguez";
     "created_at" := VStr "2024-08-01T09:00:00" ]}.

Definition sample_new : document :=
  {[ "_id" := VOid oid2;
     "message" := VStr "Science fair";
     "start_date" := VStr "2026-01-01T00:00:00";
     "end_date" := VStr "2026-12-31T23:59:59";
     "created_by" := VStr "mrodriguez";
     "created_at" := VStr "2025-12-20T10:30:00" ]}.

Definition sample_world : world :=
  World (Database [sample_old; sample_new] [sample_teacher]) [].


(** * Properties *)

(** ** The lexicographic order *)

Lemma ascii_compare_lt (a b : ascii) :
  Ascii.compare a b = Lt ↔ (N_of_ascii a < N_of_ascii b)%N.
Proof. unfold Ascii.compare. apply N.compare_lt_iff. Qed.

Lemma ascii_compare_gt (a b : ascii) :
  Ascii.compare a b = Gt ↔ (N_of_ascii b < N_of_ascii a)%N.
Proof. unfold Ascii.compare. apply N.compare_gt_iff. Qed.

Lemma ascii_compare_eq (a b : ascii) : Ascii.compare a b = Eq ↔ a = b.
Proof.
  split; [apply Ascii.compare_eq_iff | intros ->].
  unfold Ascii.compare. apply N.compare_refl.
Qed.

(** [str_le] is the lexicographic order: the empty string comes first, and
    two non-empty strings are ordered by their first bytes, then by their
    tails. *)
Lemma str_le_empty (t : string) : str_le "" t.
Proof. by destruct t. Qed.

Lemma str_le_cons_empty a (s : string) : ¬ str_le (String a s) "".
Proof. done. Qed.

Lemma str_le_cons a b (s t : string) :
  str_le (String a s) (String b t) ↔
  (N_of_ascii a < N_of_ascii b)%N ∨ (a = b ∧ str_le s t).
Proof.
  unfold str_le, String.leb. simpl.
  destruct (Ascii.compare a b) eqn:E.
  - apply ascii_compare_eq in E as ->. split; [by right|].
    intros [?|[_ ?]]; [lia|done].
  - apply ascii_compare_lt in E. split; [by left | done].
  - apply ascii_compare_gt in E. split; [done|].
    intros [?|[-> _]]; lia.
Qed.

Lemma str_le_refl (s : string) : str_le s s.
Proof.
  induction s as [|a s IH]; [done|]. apply str_le_cons. by right.
Qed.

Lemma str_le_trans (s t u : string) : str_le s t → str_le t u → str_le s u.
Proof.
  revert t u. induction s as [|a s IH]; intros [|b t] [|c u]; try done.
  rewrite !str_le_cons. intros [?|[-> ?]] [?|[-> ?]].
  - left. lia.
  - by left.
  - by left.
  - right. split; [done|]. by apply (IH t).
Qed.

Lemma str_le_total (s t : string) : str_le s t ∨ str_le t s.
Proof. apply String.leb_total. Qed.

(** [bson_leb] is: lower type first, then the payload in lexicographic
    order. *)
Lemma bson_leb_spec (a b : value) :
  bson_leb a b = true ↔
  (type_rank a < type_rank b)%N ∨
  (type_rank a = type_rank b ∧ str_le (payload a) (payload b)).
Proof.
  unfold bson_leb, bson_compare, str_le, String.leb.
  destruct (N.compare_spec (type_rank a) (type_rank b)) as [E|L|G].
  - destruct (String.compare _ _); split; try done; try (by right);
      intros [?|[_ ?]]; try done; lia.
  - split; [by left | done].
  - split; [done | intros [?|[? _]]; lia].
Qed.

Lemma bson_leb_str (s t : string) :
  bson_leb (VStr s) (VStr t) = true ↔ str_le s t.
Proof.
  rewrite bson_leb_spec. simpl. split; [intros [?|[_ ?]]; [lia|done]|].
  intros. by right.
Qed.

Global Instance desc_by_total f : Total (desc_by f).
Proof.
  intros a b. unfold desc_by. rewrite !bson_leb_spec.
  destruct (N.lt_trichotomy (type_rank (field a f)) (type_rank (field b f)))
    as [?|[E|?]]; [right; by left | | left; by left].
  destruct (str_le_total (payload (field a f)) (payload (field b f)));
    [right | left]; right; split; done.
Qed.

Global Instance desc_by_trans f : Transitive (desc_by f).
Proof.
  intros a b c. unfold desc_by. rewrite !bson_leb_spec.
  intros [?|[E1 L1]] [?|[E2 L2]]; try (left; lia).
  right. split; [lia|]. by eapply str_le_trans.
Qed.

(** ** Documents and collections *)


Lemma matches_by_id (v : value) (d : document) :
  v ≠ VNull → matches (by_id v) d = true ↔ d !! "_id" = Some v.
Proof.
  intros Hv. unfold matches, by_id. simpl.
  rewrite andb_true_r, bool_decide_eq_true. unfold field.
  destruct (d !! "_id") as [x|]; simpl; split; congruence.
Qed.

Lemma find_one_by_id_Some (v : value) (c : list document) :
  v ≠ VNull → (∃ d, d ∈ c ∧ d !! "_id" = Some v) →
  ∃ d, coll_find_one (by_id v) c = Some d ∧ d !! "_id" = Some v ∧ d ∈ c.
Proof.
  intros Hv (d & Hin & Hd). unfold coll_find_one.
  destruct (List.find (matches (by_id v)) c) as [e|] eqn:E.
  - apply find_some in E as [Hin' Hm]. exists e. split; [done|].
    split; [by apply matches_by_id | by apply list_elem_of_In].
  - apply list_elem_of_In in Hin. apply (find_none _ _ E) in Hin.
    apply (matches_by_id v d Hv) in Hd. congruence.
Qed.

Lemma find_one_by_id_None (v : value) (c : list document) :
  v ≠ VNull → ¬ (∃ d, d ∈ c ∧ d !! "_id" = Some v) →
  coll_find_one (by_id v) c = None.
Proof.
  intros Hv Hno. unfold coll_find_one.
  destruct (List.find (matches (by_id v)) c) as [e|] eqn:E; [|done].
  apply find_some in E as [Hin Hm]. destruct Hno. exists e.
  split; [by apply list_elem_of_In | by apply matches_by_id].
Qed.

(** Without a match, [update_one] and [delete_one] change nothing and
    count zero. *)
Lemma update_one_no_match q upd (c : list document) :
  (∀ d, d ∈ c → matches q d = false) → coll_update_one q upd c = (c, 0).
Proof.
  induction c as [|d c IH]; intros Hno; [done|]. simpl.
  rewrite (Hno d) by apply list_elem_of_here.
  rewrite IH; [done|]. intros e He. apply Hno. by apply list_elem_of_further.
Qed.

Lemma delete_one_no_match q (c : list document) :
  (∀ d, d ∈ c → matches q d = false) → coll_delete_one q c = (c, 0).
Proof.
  induction c as [|d c IH]; intros Hno; [done|]. simpl.
  rewrite (Hno d) by apply list_elem_of_here.
  rewrite IH; [done|]. intros e He. apply Hno. by apply list_elem_of_further.
Qed.

Lemma set_get_coll (c : collection) (b : database) :
  set_coll c (get_coll c b) b = b.
Proof. by destruct c, b. Qed.

(** ** Running the store calls *)


Lemma find_run c q w :
  find c q w = (Return (coll_find q (get_coll c (db w))), logged c Find w).
Proof. unfold find, store_call, logged. by rewrite set_get_coll. Qed.

Lemma find_sorted_run c q f w :
  find_sorted c q f w =
  (Return (sort_desc f (coll_find q (get_coll c (db w)))), logged c Find w).
Proof. unfold find_sorted, store_call, logged. by rewrite set_get_coll. Qed.

Lemma find_one_run c q w :
  find_one c q w =
  (Return (coll_find_one q (get_coll c (db w))), logged c FindOne w).
Proof. unfold find_one, store_call, logged. by rewrite set_get_coll. Qed.

Lemma bind_run {A B} (m : M A) (f : A → M B) (w : world) :
  (x ← m; f x) w =
  match m w with
  | (Return a, w') => f a w'
  | (Raise e, w') => (Raise e, w')
  end.
Proof. done. Qed.

(** The rendering loop succeeds on documents that carry an ["_id"], and
    leaves the world alone. *)
Lemma mapM_stringify_id (l : list document) (w : world) :
  Forall has_id l →
  mapM stringify_id l w = (Return (with_str_id <$> l), w).
Proof.
  induction 1 as [|d l [v Hv] _ IH]; [done|].
  simpl. rewrite bind_run. unfold stringify_id at 1, getitem.
  rewrite Hv. simpl. rewrite bind_run, IH. simpl.
  unfold with_str_id, field. by rewrite Hv.
Qed.

Section properties.
Context `{Libraries}.

(** ** The three validation blocks *)


Lemma verify_user_known username w :
  has_user username (teachers (db w)) →
  verify_user username w = (Return tt, logged teachers_collection FindOne w).
Proof.
  intros Hu. unfold verify_user. rewrite bind_run, find_one_run.
  destruct (find_one_by_id_Some (VStr username) (teachers (db w)))
    as (d & Hf & Hd & _); [done..|].
  cbn [get_coll]. rewrite Hf. simpl.
  rewrite bool_decide_eq_false_2; [done|].
  intros ->. by rewrite lookup_empty in Hd.
Qed.

Lemma verify_user_unknown username w :
  ¬ has_user username (teachers (db w)) →
  verify_user username w =
  (Raise (HTTPException 401 "Unauthorized"),
   logged teachers_collection FindOne w).
Proof.
  intros Hu. unfold verify_user. rewrite bind_run, find_one_run.
  cbn [get_coll]. by rewrite find_one_by_id_None.
Qed.

Lemma validate_id_valid announcement_id o w :
  ObjectId_of_str announcement_id = Some o →
  validate_id announcement_id w = (Return o, w).
Proof.
  intros Ho. unfold validate_id, try_except, new_ObjectId. by rewrite Ho.
Qed.

Lemma validate_id_invalid announcement_id w :
  ObjectId_of_str announcement_id = None →
  validate_id announcement_id w =
  (Raise (HTTPException 400 "Invalid announcement ID"), w).
Proof.
  intros Ho. unfold validate_id, try_except, new_ObjectId. by rewrite Ho.
Qed.

Lemma truthy_str_Some s : s ≠ "" → truthy_str (Some s) = true.
Proof.
  intros Hs. simpl. apply negb_true_iff. by apply String.eqb_neq.
Qed.

Lemma validate_dates_pass end_date start_date w :
  dates_pass end_date start_date →
  validate_dates end_date start_date w = (Return tt, w).
Proof.
  intros [[t Ht] Hs]. unfold validate_dates, try_except.
  rewrite bind_run. unfold datetime_fromisoformat at 1. rewrite Ht. simpl.
  destruct start_date as [s|]; [|done]. simpl.
  destruct (String.eqb_spec s "") as [->|Hne]; [done|]. simpl.
  destruct (Hs s eq_refl Hne) as [t' Ht'].
  rewrite bind_run. unfold datetime_fromisoformat. by rewrite Ht'.
Qed.

Lemma validate_dates_fail end_date start_date w :
  fromisoformat (replace_Z end_date) = None ∨
  (∃ s, start_date = Some s ∧ s ≠ "" ∧ fromisoformat (replace_Z s) = None) →
  validate_dates end_date start_date w =
  (Raise (HTTPException 400 "Invalid date format"), w).
Proof.
  intros Hbad. unfold validate_dates, try_except.
  rewrite bind_run. unfold datetime_fromisoformat at 1.
  destruct (fromisoformat (replace_Z end_date)) as [t|] eqn:Ht; [|done].
  destruct Hbad as [?|(s & -> & Hne & Hs)]; [done|].
  rewrite truthy_str_Some by done.
  unfold datetime_fromisoformat. cbn [default id]. by rewrite Hs.
Qed.

(** ** The failing runs of the write handlers *)

(** Enter the [try] block of a handler, then run its blocks one by one,
    each with the lemma that describes it. *)
Tactic Notation "enter" reference(handler) :=
  unfold handler, reraising, try_except.
Tactic Notation "step" uconstr(block) := rewrite bind_run, block by done.

Lemma update_one_run c q upd w :
  update_one c q upd w =
  (Return (coll_update_one q upd (get_coll c (db w))).2,
   World (set_coll c (coll_update_one q upd (get_coll c (db w))).1 (db w))
         (log w ++ [(c, UpdateOne)])).
Proof.
  unfold update_one, store_call. by destruct (coll_update_one _ _ _).
Qed.

Lemma delete_one_run c q w :
  delete_one c q w =
  (Return (coll_delete_one q (get_coll c (db w))).2,
   World (set_coll c (coll_delete_one q (get_coll c (db w))).1 (db w))
         (log w ++ [(c, DeleteOne)])).
Proof.
  unfold delete_one, store_call. by destruct (coll_delete_one _ _).
Qed.

Lemma create_unknown_user now g message end_date username start_date w :
  ¬ has_user username (teachers (db w)) →
  create_announcement now g message end_date username start_date w =
  (Raise (HTTPException 401 "Unauthorized"),
   logged teachers_collection FindOne w).
Proof.
  intros Hu. enter create_announcement.
  by step verify_user_unknown.
Qed.

Lemma update_unknown_user id message end_date username start_date w :
  ¬ has_user username (teachers (db w)) →
  update_announcement id message end_date username start_date w =
  (Raise (HTTPException 401 "Unauthorized"),
   logged teachers_collection FindOne w).
Proof.
  intros Hu. enter update_announcement.
  by step verify_user_unknown.
Qed.

Lemma delete_unknown_user id username w :
  ¬ has_user username (teachers (db w)) →
  delete_announcement id username w =
  (Raise (HTTPException 401 "Unauthorized"),
   logged teachers_collection FindOne w).
Proof.
  intros Hu. enter delete_announcement.
  by step verify_user_unknown.
Qed.

Lemma update_invalid_id id message end_date username start_date w :
  has_user username (teachers (db w)) →
  ObjectId_of_str id = None →
  update_announcement id message end_date username start_date w =
  (Raise (HTTPException 400 "Invalid announcement ID"),
   logged teachers_collection FindOne w).
Proof.
  intros Hu Hid. enter update_announcement.
  step verify_user_known.
  by step validate_id_invalid.
Qed.

Lemma delete_invalid_id id username w :
  has_user username (teachers (db w)) →
  ObjectId_of_str id = None →
  delete_announcement id username w =
  (Raise (HTTPException 400 "Invalid announcement ID"),
   logged teachers_collection FindOne w).
Proof.
  intros Hu Hid. enter delete_announcement.
  step verify_user_known.
  by step validate_id_invalid.
Qed.

Lemma create_bad_dates now g message end_date username start_date w :
  has_user username (teachers (db w)) →
  fromisoformat (replace_Z end_date) = None ∨
  (∃ s, start_date = Some s ∧ s ≠ "" ∧ fromisoformat (replace_Z s) = None) →
  create_announcement now g message end_date username start_date w =
  (Raise (HTTPException 400 "Invalid date format"),
   logged teachers_collection FindOne w).
Proof.
  intros Hu Hbad. enter create_announcement.
  step verify_user_known.
  by step validate_dates_fail.
Qed.

Lemma update_bad_dates id o message end_date username start_date w :
  has_user username (teachers (db w)) →
  ObjectId_of_str id = Some o →
  fromisoformat (replace_Z end_date) = None ∨
  (∃ s, start_date = Some s ∧ s ≠ "" ∧ fromisoformat (replace_Z s) = None) →
  update_announcement id message end_date username start_date w =
  (Raise (HTTPException 400 "Invalid date format"),
   logged teachers_collection FindOne w).
Proof.
  intros Hu Hid Hbad. enter update_announcement.
  step verify_user_known.
  step (validate_id_valid _ o).
  by step validate_dates_fail.
Qed.

Lemma no_oid_no_match o (c : list document) :
  ¬ has_oid o c → ∀ d, d ∈ c → matches (by_id (VOid o)) d = false.
Proof.
  intros Hno d Hd. apply not_true_is_false. intros Hm.
  apply matches_by_id in Hm; [|done]. apply Hno. by exists d.
Qed.

Lemma update_not_found id o message end_date username start_date w :
  has_user username (teachers (db w)) →
  ObjectId_of_str id = Some o →
  dates_pass end_date start_date →
  ¬ has_oid o (announcements (db w)) →
  update_announcement id message end_date username start_date w =
  (Raise (HTTPException 404 "Announcement not found"),
   logged announcements_collection UpdateOne
     (logged teachers_collection FindOne w)).
Proof.
  intros Hu Hid Hdates Hno. enter update_announcement.
  step verify_user_known.
  step (validate_id_valid _ o).
  step validate_dates_pass.
  rewrite bind_run, update_one_run. cbn [get_coll logged db].
  rewrite update_one_no_match by by apply no_oid_no_match.
  simpl. unfold logged. simpl. by destruct (db w).
Qed.

Lemma delete_not_found id o username w :
  has_user username (teachers (db w)) →
  ObjectId_of_str id = Some o →
  ¬ has_oid o (announcements (db w)) →
  delete_announcement id username w =
  (Raise (HTTPException 404 "Announcement not found"),
   logged announcements_collection DeleteOne
     (logged teachers_collection FindOne w)).
Proof.
  intros Hu Hid Hno. enter delete_announcement.
  step verify_user_known.
  step (validate_id_valid _ o).
  rewrite bind_run, delete_one_run. cbn [get_coll logged db].
  rewrite delete_one_no_match by by apply no_oid_no_match.
  simpl. unfold logged. simpl. by destruct (db w).
Qed.

(** ** The successful run of [create_announcement] *)

Lemma has_oid_existsb o (c : list document) :
  existsb (λ e : document, bool_decide (e !! "_id" = Some (VOid o))) c = true
  ↔ has_oid o c.
Proof.
  rewrite existsb_exists. unfold has_oid.
  split; intros (d & Hd & Hid); exists d.
  - apply bool_decide_eq_true in Hid. by rewrite list_elem_of_In.
  - rewrite bool_decide_eq_true. by rewrite <- list_elem_of_In.
Qed.

Global Instance has_oid_dec o c : Decision (has_oid o c).
Proof.
  destruct (existsb (λ e : document,
              bool_decide (e !! "_id" = Some (VOid o))) c) eqn:E.
  - left. by apply has_oid_existsb.
  - right. intros Hh. apply has_oid_existsb in Hh. congruence.
Defined.

Global Instance has_user_dec u c : Decision (has_user u c).
Proof.
  destruct (existsb (λ e : document,
              bool_decide (e !! "_id" = Some (VStr u))) c) eqn:E.
  - left. apply existsb_exists in E as (d & Hd & Hid). exists d.
    apply bool_decide_eq_true in Hid. by rewrite list_elem_of_In.
  - right. intros (d & Hd & Hid).
    assert (existsb (λ e : document,
              bool_decide (e !! "_id" = Some (VStr u))) c = true);
      [|congruence].
    apply existsb_exists. exists d. rewrite bool_decide_eq_true.
    by rewrite <- list_elem_of_In.
Defined.

Lemma insert_one_fresh g (d : document) (c : list document) :
  d !! "_id" = None → ¬ has_oid g c →
  coll_insert_one g d c = Some (c ++ [<["_id" := VOid g]> d], VOid g).
Proof.
  intros Hd Hg. unfold coll_insert_one. rewrite Hd.
  unfold field. rewrite lookup_insert_eq. simpl.
  destruct (existsb _ c) eqn:E; [|done].
  by apply has_oid_existsb in E.
Qed.

Lemma insert_one_duplicate g (d : document) (c : list document) :
  d !! "_id" = None → has_oid g c → coll_insert_one g d c = None.
Proof.
  intros Hd Hg. unfold coll_insert_one. rewrite Hd.
  unfold field. rewrite lookup_insert_eq. simpl.
  apply has_oid_existsb in Hg. by rewrite Hg.
Qed.

Lemma new_announcement_id now message end_date username start_date :
  new_announcement now message end_date username start_date !! "_id" = None.
Proof. unfold new_announcement. by simplify_map_eq. Qed.

Lemma dates_pass_or_fail end_date start_date :
  dates_pass end_date start_date ∨
  (fromisoformat (replace_Z end_date) = None ∨
   ∃ s, start_date = Some s ∧ s ≠ "" ∧ fromisoformat (replace_Z s) = None).
Proof.
  unfold dates_pass, date_parses.
  destruct (fromisoformat (replace_Z end_date)) as [t|] eqn:He;
    [|right; by left].
  destruct start_date as [s|].
  - destruct (decide (s = "")) as [->|Hne].
    + left. split; [by eexists|]. by intros ? [= <-].
    + destruct (fromisoformat (replace_Z s)) as [t'|] eqn:Hs.
      * left. split; [by eexists|]. intros ? [= <-] _. by eexists.
      * right. right. by exists s.
  - left. split; [by eexists|]. done.
Qed.

Lemma create_run now g message end_date username start_date w :
  has_user username (teachers (db w)) →
  dates_pass end_date start_date →
  ¬ has_oid g (announcements (db w)) →
  create_announcement now g message end_date username start_date w =
  (Return (<["_id" := VStr (oid_hex g)]>
             (new_announcement now message end_date username start_date)),
   created now g message end_date username start_date w).
Proof.
  intros Hu Hd Hg. enter create_announcement.
  step verify_user_known.
  step validate_dates_pass.
  rewrite bind_run. unfold insert_one, store_call. cbn [get_coll logged db].
  rewrite insert_one_fresh by (done || apply new_announcement_id).
  unfold created, logged. cbn [mret M_ret set_coll log db str].
  by rewrite <- app_assoc.
Qed.

Lemma create_duplicate now g message end_date username start_date w :
  has_user username (teachers (db w)) →
  dates_pass end_date start_date →
  has_oid g (announcements (db w)) →
  (create_announcement now g message end_date username start_date w).1 =
  Raise (HTTPException 500 "Failed to create announcement").
Proof.
  intros Hu Hd Hg. enter create_announcement.
  step verify_user_known.
  step validate_dates_pass.
  rewrite bind_run. unfold insert_one, store_call. cbn [get_coll logged db].
  rewrite insert_one_duplicate by (done || apply new_announcement_id).
  done.
Qed.

(** A successful [create_announcement] is the run above. *)
Lemma create_inv now g message end_date username start_date w r w' :
  create_announcement now g message end_date username start_date w
  = (Return r, w') →
  r = <["_id" := VStr (oid_hex g)]>
        (new_announcement now message end_date username start_date) ∧
  w' = created now g message end_date username start_date w.
Proof.
  intros Hrun.
  destruct (decide (has_user username (teachers (db w)))) as [Hu|Hu];
    [|by rewrite create_unknown_user in Hrun].
  destruct (dates_pass_or_fail end_date start_date) as [Hd|Hd];
    [|by rewrite create_bad_dates in Hrun].
  destruct (decide (has_oid g (announcements (db w)))) as [Hg|Hg].
  - pose proof (create_duplicate now g message end_date username
                  start_date w Hu Hd Hg) as E.
    rewrite Hrun in E. done.
  - rewrite create_run in Hrun by done. by injection Hrun as <- <-.
Qed.

(** ** The successful run of [update_announcement] *)

Lemma find_one_first q (c : list document) i d :
  c !! i = Some d → matches q d = true →
  (∀ j e, (j < i)%nat → c !! j = Some e → matches q e = false) →
  coll_find_one q c = Some d.
Proof.
  unfold coll_find_one. revert i.
  induction c as [|x c IH]; intros [|i] Hi Hm Hfirst; try done; simpl in *.
  - injection Hi as ->. by rewrite Hm.
  - rewrite (Hfirst 0%nat x) by (done || lia).
    apply (IH i); [done..|]. intros j e Hj He. apply (Hfirst (S j)); [lia|done].
Qed.

Lemma update_data_id message end_date start_date :
  update_data message end_date start_date !! "_id" = None.
Proof. unfold update_data. by simplify_map_eq. Qed.

Lemma stringify_id_run (d : document) w :
  has_id d → stringify_id d w = (Return (with_str_id d), w).
Proof.
  intros [v Hv]. unfold stringify_id, getitem, with_str_id, field.
  rewrite bind_run, Hv. done.
Qed.

Lemma has_oid_first o (c : list document) :
  has_oid o c → ∃ i old, first_with_oid o c i old.
Proof.
  induction c as [|d c IH]; intros (x & Hx & Hid).
  - by apply elem_of_nil in Hx.
  - destruct (decide (d !! "_id" = Some (VOid o))) as [Hd|Hd].
    + exists 0%nat, d. repeat split; try done. intros; lia.
    + apply elem_of_cons in Hx as [->|Hx]; [done|].
      destruct IH as (i & old & Hi & Hold & Hfirst); [by exists x|].
      exists (S i), old. repeat split; try done.
      intros [|j] e Hj He; simpl in He; [by injection He as <-|].
      apply (Hfirst j); [lia|done].
Qed.

Lemma update_one_first o upd (c : list document) i old :
  first_with_oid o c i old →
  coll_update_one (by_id (VOid o)) upd c = (<[i := upd ∪ old]> c, 1).
Proof.
  revert i. induction c as [|d c IH]; intros [|i] (Hi & Hold & Hfirst);
    try done; cbn [coll_update_one].
  - injection Hi as ->. apply matches_by_id in Hold; [|done].
    by rewrite Hold.
  - assert (matches (by_id (VOid o)) d = false) as Hd.
    { apply not_true_is_false. intros Hm. apply matches_by_id in Hm; [|done].
      by apply (Hfirst 0%nat d); [lia| |]. }
    rewrite Hd, (IH i); [done|].
    repeat split; try done. intros j e Hj He. apply (Hfirst (S j)); [lia|done].
Qed.

Lemma update_run id o i old message end_date username start_date w :
  has_user username (teachers (db w)) →
  ObjectId_of_str id = Some o →
  dates_pass end_date start_date →
  first_with_oid o (announcements (db w)) i old →
  update_announcement id message end_date username start_date w =
  (Return (with_str_id (update_data message end_date start_date ∪ old)),
   updated i old message end_date start_date w).
Proof.
  intros Hu Hid Hdates Hfirst.
  pose proof Hfirst as (Hi & Hold & Hbefore).
  enter update_announcement.
  step verify_user_known.
  step (validate_id_valid _ o).
  step validate_dates_pass.
  rewrite bind_run, update_one_run. cbn [get_coll logged db].
  rewrite (update_one_first o _ _ i old) by done. cbn [fst snd].
  rewrite bool_decide_eq_false_2 by done.
  rewrite bind_run, find_one_run. cbn [get_coll set_coll db announcements].
  set (new := update_data message end_date start_date ∪ old).
  assert (new !! "_id" = Some (VOid o)) as Hnew.
  { unfold new. rewrite lookup_union_r; [done|apply update_data_id]. }
  rewrite (find_one_first _ _ i new).
  - rewrite stringify_id_run by by eexists.
    unfold updated, logged. cbn [log db]. by rewrite <- !app_assoc.
  - apply list_lookup_insert_eq. by eapply lookup_lt_Some.
  - by apply (matches_by_id (VOid o)).
  - intros j e Hj He. rewrite list_lookup_insert_ne in He by lia.
    apply not_true_is_false. intros Hm.
    apply (matches_by_id (VOid o)) in Hm; [|done]. by apply (Hbefore j e).
Qed.

(** A successful [update_announcement] is the run above. *)
Lemma update_inv id message end_date username start_date w r w' :
  update_announcement id message end_date username start_date w
  = (Return r, w') →
  ∃ o i old,
    ObjectId_of_str id = Some o ∧
    first_with_oid o (announcements (db w)) i old ∧
    r = with_str_id (update_data message end_date start_date ∪ old) ∧
    w' = updated i old message end_date start_date w.
Proof.
  intros Hrun.
  destruct (decide (has_user username (teachers (db w)))) as [Hu|Hu];
    [|by rewrite update_unknown_user in Hrun].
  destruct (ObjectId_of_str id) as [o|] eqn:Hid;
    [|by rewrite update_invalid_id in Hrun].
  destruct (dates_pass_or_fail end_date start_date) as [Hd|Hd];
    [|by rewrite (update_bad_dates _ o) in Hrun].
  destruct (decide (has_oid o (announcements (db w)))) as [Ho|Ho];
    [|by rewrite (update_not_found _ o) in Hrun].
  destruct (has_oid_first _ _ Ho) as (i & old & Hfirst).
  rewrite (update_run _ o i old) in Hrun by done.
  injection Hrun as <- <-. by exists o, i, old.
Qed.

End properties.

(** ** The read handlers *)

Lemma gte_str_matches (x : value) (now : string) :
  condition_matches x (CGte (VStr now)) = true ↔
  ∃ e, x = VStr e ∧ str_le now e.
Proof.
  destruct x as [|e|o]; simpl.
  - split; [done | by intros (? & ? & ?)].
  - rewrite bson_leb_str. split; [by exists e | by intros (? & [= <-] & ?)].
  - split; [done | by intros (? & ? & ?)].
Qed.

Lemma lte_str_matches (x : value) (now : string) :
  condition_matches x (CLte (VStr now)) = true ↔
  ∃ s, x = VStr s ∧ str_le s now.
Proof.
  destruct x as [|s|o]; simpl.
  - split; [done | by intros (? & ? & ?)].
  - rewrite bson_leb_str. split; [by exists s | by intros (? & [= <-] & ?)].
  - split; [done | by intros (? & ? & ?)].
Qed.

Lemma field_str (d : document) f s : field d f = VStr s ↔ d !! f = Some (VStr s).
Proof. unfold field. destruct (d !! f); simpl; split; congruence. Qed.

Lemma field_null (d : document) f : field d f = VNull ↔ absent d f.
Proof.
  unfold field, absent. destruct (d !! f) as [v|]; simpl.
  - split; [intros ->; by right | by intros [?|[= ->]]].
  - split; [by left | done].
Qed.

Lemma matches_active (now : string) (a : document) :
  matches (active_filter now) a = true ↔ active_at now a.
Proof.
  unfold matches, active_filter, active_at.
  cbn [forallb existsb clause_matches].
  rewrite !andb_true_r, orb_false_r, andb_true_iff, orb_true_iff.
  rewrite gte_str_matches, lte_str_matches.
  cbn [condition_matches]. rewrite bool_decide_eq_true, field_null.
  setoid_rewrite field_str. done.
Qed.

Lemma field_with_str_id (d : document) f :
  f ≠ "_id" → field (with_str_id d) f = field d f.
Proof.
  intros Hf. unfold field, with_str_id. by rewrite lookup_insert_ne.
Qed.

Lemma active_at_with_str_id now (d : document) :
  active_at now (with_str_id d) ↔ active_at now d.
Proof.
  unfold active_at, absent, with_str_id.
  by rewrite !lookup_insert_ne by done.
Qed.

Lemma get_active_run now w :
  Forall has_id (announcements (db w)) →
  get_active_announcements now w =
  (Return (with_str_id <$>
             coll_find (active_filter now) (announcements (db w))),
   logged announcements_collection Find w).
Proof.
  intros Hid. unfold get_active_announcements, failing_500, try_except.
  rewrite bind_run, find_run. cbn [get_coll].
  rewrite mapM_stringify_id; [done|].
  apply Forall_forall. intros d Hd. rewrite Forall_forall in Hid.
  apply Hid. apply list_elem_of_In. apply list_elem_of_In in Hd.
  unfold coll_find in Hd. by apply filter_In in Hd as [? _].
Qed.

Lemma find_everything (c : list document) : coll_find [] c = c.
Proof. unfold coll_find. by apply forallb_filter_id, forallb_forall. Qed.

Lemma get_all_run w :
  Forall has_id (announcements (db w)) →
  get_all_announcements w =
  (Return (with_str_id <$> sort_desc "created_at" (announcements (db w))),
   logged announcements_collection Find w).
Proof.
  intros Hid. unfold get_all_announcements, failing_500, try_except.
  rewrite bind_run, find_sorted_run. cbn [get_coll].
  rewrite find_everything, mapM_stringify_id; [done|].
  unfold sort_desc. by rewrite merge_sort_Permutation.
Qed.

Lemma StronglySorted_lookup {A} (R : relation A) (l : list A) i j a b :
  StronglySorted R l → (i < j)%nat →
  l !! i = Some a → l !! j = Some b → R a b.
Proof.
  intros Hs. revert i j.
  induction Hs as [|x l Hs IH Hx]; intros i j Hij Hi Hj; [done|].
  destruct j as [|j]; [lia|]. destruct i as [|i]; simpl in *.
  - injection Hi as <-. rewrite Forall_forall in Hx. apply Hx.
    by eapply list_elem_of_lookup_2.
  - apply (IH i j); [lia|done..].
Qed.

Lemma sorted_with_str_id f (l : list document) :
  f ≠ "_id" →
  StronglySorted (desc_by f) l →
  StronglySorted (desc_by f) (with_str_id <$> l).
Proof.
  intros Hf. induction 1 as [|x l Hs IH Hx]; simpl; constructor; [done|].
  apply Forall_fmap. eapply Forall_impl; [exact Hx|].
  intros y Hy. unfold desc_by, compose in *.
  by rewrite !field_with_str_id.
Qed.

(** C1: for every announcement A of the store and every clock reading now,
    A (with its identifier rendered as a string) appears in the output of
    get_active_announcements if and only if end_date(A) >= now and
    (start_date(A) is absent or start_date(A) <= now); both comparisons
    are lexicographic on the stored strings and both bounds are
    inclusive. *)
Theorem active_iff_in_date_range (now : string) (w : world) :
  Forall has_id (announcements (db w)) →
  ∃ out,
    (get_active_announcements now w).1 = Return out ∧
    ∀ a, a ∈ announcements (db w) →
         with_str_id a ∈ out ↔ active_at now a.
Proof.
  intros Hid. rewrite get_active_run by done.
  eexists. split; [done|]. intros a Ha.
  rewrite list_elem_of_fmap. split.
  - intros (b & Hab & Hb). apply list_elem_of_In in Hb.
    unfold coll_find in Hb. apply filter_In in Hb as [_ Hb].
    apply matches_active in Hb.
    apply active_at_with_str_id. rewrite Hab.
    by apply active_at_with_str_id.
  - intros Hact. exists a. split; [done|].
    apply list_elem_of_In. unfold coll_find. apply filter_In.
    split; [by apply list_elem_of_In | by apply matches_active].
Qed.

(** C6: get_all_announcements returns every announcement of the store,
    ordered by created_at descending: for any two results at positions
    i < j, the created_at of the record at i is >= that of the record at
    j, which for two timestamp strings is the lexicographic order. *)
Theorem all_sorted_by_created_at_desc (w : world) :
  Forall has_id (announcements (db w)) →
  ∃ out,
    (get_all_announcements w).1 = Return out ∧
    out ≡ₚ with_str_id <$> announcements (db w) ∧
    ∀ i j a b, (i < j)%nat → out !! i = Some a → out !! j = Some b →
      desc_by "created_at" a b ∧
      ∀ s t, a !! "created_at" = Some (VStr s) →
             b !! "created_at" = Some (VStr t) → str_le t s.
Proof.
  intros Hid. rewrite get_all_run by done.
  eexists. split; [done|]. split.
  { unfold sort_desc. by rewrite merge_sort_Permutation. }
  intros i j a b Hij Ha Hb.
  assert (desc_by "created_at" a b) as Hab.
  { eapply StronglySorted_lookup; [|exact Hij|exact Ha|exact Hb].
    apply sorted_with_str_id; [done|].
    apply StronglySorted_merge_sort; apply _. }
  split; [done|]. intros s t Hs Ht. unfold desc_by, field in Hab.
  rewrite Hs, Ht in Hab. by apply bson_leb_str.
Qed.

(** ** The write handlers *)

Section claims.
Context `{Libraries}.

(** C3: create_announcement with a username that has no record in the user
    collection fails with 401 Unauthorized and leaves the announcement
    collection unchanged: nothing is persisted. *)
Theorem create_unknown_user_unauthorized
    now g message end_date username start_date w :
  ¬ has_user username (teachers (db w)) →
  (create_announcement now g message end_date username start_date w).1
  = Raise (HTTPException 401 "Unauthorized") ∧
  announcements
    (db (create_announcement now g message end_date username start_date w).2)
  = announcements (db w).
Proof. intros Hu. by rewrite create_unknown_user. Qed.

(** C10: create, update and delete check the username before the
    identifier and the dates: with an unknown username the result is
    401 Unauthorized whatever the identifier and the dates are, malformed
    ones included, and so never 400. *)
Theorem unknown_user_checked_first
    now g announcement_id message end_date username start_date w :
  ¬ has_user username (teachers (db w)) →
  (create_announcement now g message end_date username start_date w).1
  = Raise (HTTPException 401 "Unauthorized") ∧
  (update_announcement announcement_id message end_date username
     start_date w).1
  = Raise (HTTPException 401 "Unauthorized") ∧
  (delete_announcement announcement_id username w).1
  = Raise (HTTPException 401 "Unauthorized").
Proof.
  intros Hu.
  by rewrite create_unknown_user, update_unknown_user, delete_unknown_user.
Qed.

(** C2, amended: update and delete with a syntactically invalid identifier
    and an existing username fail with 400 InvalidInput; the announcement
    collection is neither read nor written, and the one store call made
    before the failure is the existence check on the user collection. *)
Theorem invalid_id_rejected_after_user_check
    announcement_id message end_date username start_date w :
  has_user username (teachers (db w)) →
  ObjectId_of_str announcement_id = None →
  let upd := update_announcement announcement_id message end_date username
               start_date w in
  let del := delete_announcement announcement_id username w in
  upd.1 = Raise (HTTPException 400 "Invalid announcement ID") ∧
  db upd.2 = db w ∧
  log upd.2 = log w ++ [(teachers_collection, FindOne)] ∧
  del.1 = Raise (HTTPException 400 "Invalid announcement ID") ∧
  db del.2 = db w ∧
  log del.2 = log w ++ [(teachers_collection, FindOne)].
Proof.
  intros Hu Hid. cbv zeta.
  by rewrite update_invalid_id, delete_invalid_id.
Qed.

(** C4, amended: with an existing username (and, for update, a valid
    identifier), create and update fail with 400 InvalidInput and leave
    the announcement collection unchanged when end_date does not parse, or
    when a non-empty start_date does not parse.  An empty start_date is
    not validated. *)
Theorem unparseable_dates_rejected
    now g announcement_id o message end_date username start_date w :
  has_user username (teachers (db w)) →
  ObjectId_of_str announcement_id = Some o →
  fromisoformat (replace_Z end_date) = None ∨
  (∃ s, start_date = Some s ∧ s ≠ "" ∧ fromisoformat (replace_Z s) = None) →
  let cre := create_announcement now g message end_date username
               start_date w in
  let upd := update_announcement announcement_id message end_date username
               start_date w in
  cre.1 = Raise (HTTPException 400 "Invalid date format") ∧
  announcements (db cre.2) = announcements (db w) ∧
  upd.1 = Raise (HTTPException 400 "Invalid date format") ∧
  announcements (db upd.2) = announcements (db w).
Proof.
  intros Hu Hid Hbad. cbv zeta.
  by rewrite create_bad_dates, (update_bad_dates _ o).
Qed.

(** C5: a successful update replaces the message, start_date and end_date
    fields of the matched record, and nothing else: every other field of
    that record (its identifier, created_by and created_at among them) is
    as before, and so is every other record of the collection. *)
Theorem update_replaces_three_fields_only
    announcement_id message end_date username start_date w r w' :
  update_announcement announcement_id message end_date username start_date w
  = (Return r, w') →
  ∃ o i old new,
    ObjectId_of_str announcement_id = Some o ∧
    announcements (db w) !! i = Some old ∧
    old !! "_id" = Some (VOid o) ∧
    announcements (db w') !! i = Some new ∧
    new !! "message" = Some (VStr message) ∧
    new !! "start_date" = Some (of_optional start_date) ∧
    new !! "end_date" = Some (VStr end_date) ∧
    new !! "_id" = old !! "_id" ∧
    new !! "created_by" = old !! "created_by" ∧
    new !! "created_at" = old !! "created_at" ∧
    (∀ k, k ∉ ["message"; "start_date"; "end_date"] →
          new !! k = old !! k) ∧
    length (announcements (db w')) = length (announcements (db w)) ∧
    (∀ j, j ≠ i →
          announcements (db w') !! j = announcements (db w) !! j) ∧
    teachers (db w') = teachers (db w).
Proof.
  intros Hrun. apply update_inv in Hrun
    as (o & i & old & Hid & (Hi & Hold & _) & _ & ->).
  exists o, i, old, (update_data message end_date start_date ∪ old).
  assert (∀ k, k ∉ ["message"; "start_date"; "end_date"] →
            (update_data message end_date start_date ∪ old) !! k = old !! k)
    as Hframe.
  { intros k Hk. apply lookup_union_r. unfold update_data.
    rewrite !not_elem_of_cons in Hk. destruct Hk as (? & ? & ? & _).
    by simplify_map_eq. }
  unfold updated. cbn [db announcements teachers].
  repeat split; try done.
  - apply list_lookup_insert_eq. by eapply lookup_lt_Some.
  - apply lookup_union_Some_l. unfold update_data. by simplify_map_eq.
  - apply lookup_union_Some_l. unfold update_data. by simplify_map_eq.
  - apply lookup_union_Some_l. unfold update_data. by simplify_map_eq.
  - apply Hframe. rewrite !not_elem_of_cons, elem_of_nil. naive_solver.
  - apply Hframe. rewrite !not_elem_of_cons, elem_of_nil. naive_solver.
  - apply Hframe. rewrite !not_elem_of_cons, elem_of_nil. naive_solver.
  - apply length_insert.
  - intros j Hj. by apply list_lookup_insert_ne.
Qed.

(** C7, amended: with an existing username and a syntactically valid
    identifier that matches no record, delete fails with 404 NotFound, and
    so does update when its dates pass validation; in both cases the
    database is left unchanged. *)
Theorem unmatched_id_not_found
    announcement_id o message end_date username start_date w :
  has_user username (teachers (db w)) →
  ObjectId_of_str announcement_id = Some o →
  ¬ has_oid o (announcements (db w)) →
  let del := delete_announcement announcement_id username w in
  let upd := update_announcement announcement_id message end_date username
               start_date w in
  del.1 = Raise (HTTPException 404 "Announcement not found") ∧
  db del.2 = db w ∧
  (dates_pass end_date start_date →
   upd.1 = Raise (HTTPException 404 "Announcement not found") ∧
   db upd.2 = db w).
Proof.
  intros Hu Hid Hno. cbv zeta.
  rewrite (delete_not_found _ o) by done.
  repeat split; try done; by rewrite (update_not_found _ o).
Qed.

(** C8: after a successful create with no start_date, get_all_announcements
    returns a record with the identifier create returned, the message and
    end_date that were passed, start_date None and created_by the
    username. *)
Theorem create_then_list_all_round_trip
    now g message end_date username w r w1 :
  Forall has_id (announcements (db w)) →
  create_announcement now g message end_date username None w
  = (Return r, w1) →
  ∃ out a,
    (get_all_announcements w1).1 = Return out ∧
    a ∈ out ∧
    r !! "_id" = Some (VStr (oid_hex g)) ∧
    a !! "_id" = r !! "_id" ∧
    a !! "message" = Some (VStr message) ∧
    a !! "end_date" = Some (VStr end_date) ∧
    a !! "start_date" = Some VNull ∧
    a !! "created_by" = Some (VStr username).
Proof.
  intros Hid Hrun. apply create_inv in Hrun as [-> ->].
  set (d := new_announcement now message end_date username None).
  assert (Forall has_id (announcements (db (created now g message end_date
                                              username None w)))) as Hid'.
  { unfold created. cbn [db announcements]. apply Forall_app. split; [done|].
    apply Forall_singleton. unfold has_id. by rewrite lookup_insert_eq. }
  rewrite get_all_run by done.
  exists (with_str_id <$> sort_desc "created_at"
            (announcements (db (created now g message end_date
                                  username None w)))),
         (<["_id" := VStr (oid_hex g)]> d).
  split; [done|]. split.
  { apply list_elem_of_fmap. exists (<["_id" := VOid g]> d). split.
    - unfold with_str_id, field. rewrite lookup_insert_eq. simpl.
      by rewrite insert_insert_eq.
    - unfold sort_desc. rewrite merge_sort_Permutation.
      unfold created. cbn [db announcements]. set_solver. }
  unfold d, new_announcement. by simplify_map_eq.
Qed.

Lemma active_at_fields now (a : document) end_date start_date :
  a !! "end_date" = Some (VStr end_date) →
  a !! "start_date" = Some (of_optional start_date) →
  active_at now a ↔
  str_le now end_date ∧
  (start_date = None ∨ ∃ s, start_date = Some s ∧ str_le s now).
Proof.
  intros He Hs. unfold active_at, absent. rewrite He, Hs. split.
  - intros [(e & [= <-] & Hle) Hstart]. split; [done|].
    destruct start_date as [s|]; [right|by left].
    destruct Hstart as [[?|?]|(s' & [= <-] & ?)]; try done. by exists s.
  - intros [Hle Hstart]. split; [by exists end_date|].
    destruct Hstart as [->|(s & -> & ?)]; [left; by right|].
    right. by exists s.
Qed.

(** The record a successful create returned is in the active list at
    [now] exactly when [now] lies between its dates. *)
Lemma created_record_active
    now0 g message end_date username start_date w r w1 now :
  Forall has_id (announcements (db w)) →
  create_announcement now0 g message end_date username start_date w
  = (Return r, w1) →
  ∃ out,
    (get_active_announcements now w1).1 = Return out ∧
    (r ∈ out ↔
     str_le now end_date ∧
     (start_date = None ∨ ∃ s, start_date = Some s ∧ str_le s now)).
Proof.
  intros Hids Hrun. apply create_inv in Hrun as [-> ->].
  set (lit := new_announcement now0 message end_date username start_date).
  set (d := <["_id" := VOid g]> lit).
  assert (with_str_id d = <["_id" := VStr (oid_hex g)]> lit) as Hr.
  { unfold with_str_id, field, d. rewrite lookup_insert_eq. simpl.
    by rewrite insert_insert_eq. }
  assert (∀ a : document, with_str_id a = with_str_id d →
            active_at now a ↔
            str_le now end_date ∧
            (start_date = None ∨ ∃ s, start_date = Some s ∧ str_le s now))
    as Hact.
  { intros a Ha. rewrite <- active_at_with_str_id, Ha, Hr.
    apply active_at_fields; unfold lit, new_announcement;
      by simplify_map_eq. }
  rewrite get_active_run.
  - eexists. split; [done|]. rewrite <- Hr.
    unfold created. fold lit d. cbn [db announcements].
    rewrite list_elem_of_fmap. split.
    + intros (b & Hb & Hin). apply (Hact b); [done|].
      apply list_elem_of_In in Hin. unfold coll_find in Hin.
      apply filter_In in Hin as [_ Hm]. by apply matches_active.
    + intros Hcond. exists d. split; [done|].
      apply list_elem_of_In. unfold coll_find. apply filter_In. split.
      * apply list_elem_of_In. apply elem_of_app. right.
        apply list_elem_of_here.
      * apply matches_active. by apply (Hact d).
  - unfold created. cbn [db announcements]. apply Forall_app.
    split; [done|]. apply Forall_singleton. unfold has_id.
    by rewrite lookup_insert_eq.
Qed.

(** C9: the record a successful create persists always has a start_date
    field; when the argument is omitted the field holds an explicit null,
    and it is the [{"start_date": None}] branch of the filter of
    get_active_announcements that matches the record: the filter is the
    end_date clause and the disjunction of that branch with the ["$lte"]
    branch, the record matches the first and not the second, so the filter
    matches it, and get_active_announcements lists it, exactly while
    now <= end_date. *)
Theorem create_stores_start_date
    now g message end_date username start_date w r w' :
  create_announcement now g message end_date username start_date w
  = (Return r, w') →
  ∃ d,
    announcements (db w') = announcements (db w) ++ [d] ∧
    d !! "start_date" = Some (of_optional start_date) ∧
    (start_date = None →
     d !! "start_date" = Some VNull ∧
     clause_matches d (Field "start_date" (CEq VNull)) = true ∧
     (∀ t, clause_matches d (Field "start_date" (CLte (VStr t))) = false) ∧
     ∀ t,
       (∃ end_clause null_branch lte_branch,
          active_filter t
          = [And [end_clause; [Or [null_branch; lte_branch]]]] ∧
          null_branch = [Field "start_date" (CEq VNull)] ∧
          matches null_branch d = true ∧
          matches lte_branch d = false ∧
          (matches (active_filter t) d = true
           ↔ matches end_clause d = true)) ∧
       (matches (active_filter t) d = true ↔ str_le t end_date) ∧
       (Forall has_id (announcements (db w)) →
        ∃ out,
          (get_active_announcements t w').1 = Return out ∧
          (r ∈ out ↔ str_le t end_date))).
Proof.
  intros Hrun. pose proof Hrun as Hcreated.
  apply create_inv in Hrun as [_ ->].
  set (d := <["_id" := VOid g]>
              (new_announcement now message end_date username start_date)).
  exists d. split; [done|].
  assert (d !! "start_date" = Some (of_optional start_date)) as Hsd.
  { unfold d, new_announcement. by simplify_map_eq. }
  assert (d !! "end_date" = Some (VStr end_date)) as Hed.
  { unfold d, new_announcement. by simplify_map_eq. }
  split; [done|]. intros Hnone. rewrite Hnone in Hsd. cbn [of_optional] in Hsd.
  assert (field d "start_date" = VNull) as Hfield.
  { unfold field. by rewrite Hsd. }
  split; [done|]. split; [cbn [clause_matches]; by rewrite Hfield|].
  split; [intros t; cbn [clause_matches]; by rewrite Hfield|].
  intros t. split; [|split].
  - eexists _, _, _. split; [reflexivity|]. split; [reflexivity|].
    unfold matches, active_filter. cbn [forallb existsb clause_matches].
    rewrite Hfield. cbn [condition_matches same_type type_rank N.eqb].
    rewrite bool_decide_eq_true_2 by done. cbn [andb orb].
    split; [done|]. split; [done|]. by rewrite !andb_true_r.
  - rewrite matches_active, (active_at_fields t d end_date None) by done.
    split; [by intros [? _] | intros ?; split; [done | by left]].
  - intros Hids. subst start_date.
    destruct (created_record_active _ _ _ _ _ _ _ _ _ t Hids Hcreated)
      as (out & Hout & Hiff).
    exists out. split; [done|]. rewrite Hiff.
    split; [by intros [? _] | intros ?; split; [done | by left]].
Qed.

End claims.

(** ** The claims on the sample database *)

Local Ltac by_running := vm_compute; reflexivity.

Lemma sample_world_has_ids : Forall has_id (announcements (db sample_world)).
Proof. repeat constructor; eexists; by_running. Defined.

Lemma sample_user_known :
  has_user "mrodriguez" (teachers (db sample_world)).
Proof.
  exists sample_teacher. split; [apply list_elem_of_here | by_running].
Defined.

Lemma sample_user_unknown : ¬ has_user "ghost" (teachers (db sample_world)).
Proof.
  intros (d & Hd & Hid). apply list_elem_of_singleton in Hd. subst d.
  vm_compute in Hid. discriminate Hid.
Defined.

Lemma sample_oid_unmatched :
  ¬ has_oid (Oid "65a000000000000000000009")
      (announcements (db sample_world)).
Proof.
  intros (d & Hd & Hid). cbn [sample_world db announcements] in Hd.
  rewrite !elem_of_cons, elem_of_nil in Hd.
  destruct Hd as [->|[->|[]]]; vm_compute in Hid; discriminate Hid.
Defined.

Lemma active_iff_in_date_range_witness :
  Forall has_id (announcements (db sample_world)) ∧
  ∃ out,
    (get_active_announcements "2026-06-01T00:00:00" sample_world).1
    = Return out ∧
    ∀ a, a ∈ announcements (db sample_world) →
         with_str_id a ∈ out ↔ active_at "2026-06-01T00:00:00" a.
Proof.
  split; [exact sample_world_has_ids|].
  apply active_iff_in_date_range. exact sample_world_has_ids.
Defined.

Lemma all_sorted_by_created_at_desc_witness :
  Forall has_id (announcements (db sample_world)) ∧
  ∃ out,
    (get_all_announcements sample_world).1 = Return out ∧
    out ≡ₚ with_str_id <$> announcements (db sample_world) ∧
    ∀ i j a b, (i < j)%nat → out !! i = Some a → out !! j = Some b →
      desc_by "created_at" a b ∧
      ∀ s t, a !! "created_at" = Some (VStr s) →
             b !! "created_at" = Some (VStr t) → str_le t s.
Proof.
  split; [exact sample_world_has_ids|].
  apply all_sorted_by_created_at_desc. exact sample_world_has_ids.
Defined.

Lemma create_unknown_user_unauthorized_witness :
  ¬ has_user "ghost" (teachers (db sample_world)) ∧
  (@create_announcement sample_libraries "2026-06-01T00:00:00" oid3
     "Exam week" "2026-06-30T00:00:00" "ghost" None sample_world).1
  = Raise (HTTPException 401 "Unauthorized") ∧
  announcements
    (db (@create_announcement sample_libraries "2026-06-01T00:00:00" oid3
           "Exam week" "2026-06-30T00:00:00" "ghost" None sample_world).2)
  = announcements (db sample_world).
Proof.
  split; [exact sample_user_unknown|].
  apply (@create_unknown_user_unauthorized sample_libraries).
  exact sample_user_unknown.
Defined.

Lemma unknown_user_checked_first_witness :
  ¬ has_user "ghost" (teachers (db sample_world)) ∧
  @ObjectId_of_str sample_libraries "not-an-id" = None ∧
  @fromisoformat sample_libraries (replace_Z "next week") = None ∧
  (@create_announcement sample_libraries "2026-06-01T00:00:00" oid3
     "Exam week" "next week" "ghost" None sample_world).1
  = Raise (HTTPException 401 "Unauthorized") ∧
  (@update_announcement sample_libraries "not-an-id"
     "Exam week" "next week" "ghost" None sample_world).1
  = Raise (HTTPException 401 "Unauthorized") ∧
  (@delete_announcement sample_libraries "not-an-id" "ghost" sample_world).1
  = Raise (HTTPException 401 "Unauthorized").
Proof.
  split; [exact sample_user_unknown|].
  split; [by_running|]. split; [by_running|].
  apply (@unknown_user_checked_first sample_libraries).
  exact sample_user_unknown.
Defined.

Lemma invalid_id_rejected_after_user_check_witness :
  has_user "mrodriguez" (teachers (db sample_world)) ∧
  @ObjectId_of_str sample_libraries "not-an-id" = None ∧
  (@update_announcement sample_libraries "not-an-id" "Exam week"
     "2026-06-30T00:00:00" "mrodriguez" None sample_world).1
  = Raise (HTTPException 400 "Invalid announcement ID") ∧
  (@delete_announcement sample_libraries "not-an-id" "mrodriguez"
     sample_world).1
  = Raise (HTTPException 400 "Invalid announcement ID").
Proof.
  split; [exact sample_user_known|]. split; [by_running|].
  pose proof (@invalid_id_rejected_after_user_check sample_libraries
                "not-an-id" "Exam week" "2026-06-30T00:00:00" "mrodriguez"
                None sample_world sample_user_known eq_refl) as Hc.
  cbv zeta in Hc. destruct Hc as (Hu & _ & _ & Hd & _). by split.
Defined.

Lemma unparseable_dates_rejected_witness :
  has_user "mrodriguez" (teachers (db sample_world)) ∧
  @ObjectId_of_str sample_libraries "65A000000000000000000002" = Some oid2 ∧
  @fromisoformat sample_libraries (replace_Z "next week") = None ∧
  (@create_announcement sample_libraries "2026-06-01T00:00:00" oid3
     "Exam week" "next week" "mrodriguez" None sample_world).1
  = Raise (HTTPException 400 "Invalid date format") ∧
  (@update_announcement sample_libraries "65A000000000000000000002"
     "Exam week" "next week" "mrodriguez" None sample_world).1
  = Raise (HTTPException 400 "Invalid date format").
Proof.
  split; [exact sample_user_known|].
  split; [by_running|]. split; [by_running|].
  pose proof (@unparseable_dates_rejected sample_libraries
                "2026-06-01T00:00:00" oid3 "65A000000000000000000002" oid2
                "Exam week" "next week" "mrodriguez" None sample_world
                sample_user_known eq_refl (or_introl eq_refl)) as Hc.
  cbv zeta in Hc. destruct Hc as (Hcre & _ & Hupd & _). by split.
Defined.

Lemma update_replaces_three_fields_only_witness :
  ∃ r w',
    @update_announcement sample_libraries "65A000000000000000000002"
      "Science fair moved" "2027-01-31T18:00:00" "mrodriguez" None
      sample_world = (Return r, w') ∧
    announcements (db w') !! 0%nat = Some sample_old ∧
    ∃ new,
      announcements (db w') !! 1%nat = Some new ∧
      new !! "message" = Some (VStr "Science fair moved") ∧
      new !! "start_date" = Some VNull ∧
      new !! "end_date" = Some (VStr "2027-01-31T18:00:00") ∧
      new !! "_id" = Some (VOid oid2) ∧
      new !! "created_by" = Some (VStr "mrodriguez") ∧
      new !! "created_at" = Some (VStr "2025-12-20T10:30:00").
Proof.
  destruct (@update_announcement sample_libraries "65A000000000000000000002"
              "Science fair moved" "2027-01-31T18:00:00" "mrodriguez" None
              sample_world) as [[r|e] w'] eqn:Hrun;
    [|vm_compute in Hrun; discriminate Hrun].
  exists r, w'. split; [reflexivity|].
  destruct (@update_replaces_three_fields_only sample_libraries _ _ _ _ _ _
              _ _ Hrun)
    as (o & i & old & new & Ho & Hi & Hold & Hnew & Hm & Hs & He & Hid
        & Hby & Hat & _ & _ & Hothers & _).
  injection Ho as <-.
  assert (i = 1%nat) as ->.
  { destruct i as [|[|i]]; [|done|by vm_compute in Hi].
    injection Hi as <-. vm_compute in Hold. discriminate Hold. }
  injection Hi as <-.
  split; [by rewrite Hothers|].
  exists new. by repeat split.
Defined.

Lemma unmatched_id_not_found_witness :
  has_user "mrodriguez" (teachers (db sample_world)) ∧
  @ObjectId_of_str sample_libraries "65a000000000000000000009"
  = Some (Oid "65a000000000000000000009") ∧
  ¬ has_oid (Oid "65a000000000000000000009")
      (announcements (db sample_world)) ∧
  @dates_pass sample_libraries "2026-06-30T00:00:00" None ∧
  (@delete_announcement sample_libraries "65a000000000000000000009"
     "mrodriguez" sample_world).1
  = Raise (HTTPException 404 "Announcement not found") ∧
  (@update_announcement sample_libraries "65a000000000000000000009"
     "Exam week" "2026-06-30T00:00:00" "mrodriguez" None sample_world).1
  = Raise (HTTPException 404 "Announcement not found").
Proof.
  assert (@dates_pass sample_libraries "2026-06-30T00:00:00" None) as Hd.
  { split; [eexists; by_running | discriminate]. }
  split; [exact sample_user_known|]. split; [by_running|].
  split; [exact sample_oid_unmatched|]. split; [exact Hd|].
  pose proof (@unmatched_id_not_found sample_libraries
                "65a000000000000000000009" (Oid "65a000000000000000000009")
                "Exam week" "2026-06-30T00:00:00" "mrodriguez" None
                sample_world sample_user_known eq_refl sample_oid_unmatched)
    as Hc.
  cbv zeta in Hc. destruct Hc as (Hdel & _ & Hupd).
  split; [exact Hdel|]. by apply Hupd.
Defined.

Lemma create_then_list_all_round_trip_witness :
  Forall has_id (announcements (db sample_world)) ∧
  ∃ r w1,
    @create_announcement sample_libraries "2026-06-01T00:00:00" oid3
      "Exam week" "2026-06-30T00:00:00" "mrodriguez" None sample_world
    = (Return r, w1) ∧
    ∃ out a,
      (get_all_announcements w1).1 = Return out ∧
      a ∈ out ∧
      r !! "_id" = Some (VStr "65a000000000000000000003") ∧
      a !! "_id" = r !! "_id" ∧
      a !! "message" = Some (VStr "Exam week") ∧
      a !! "end_date" = Some (VStr "2026-06-30T00:00:00") ∧
      a !! "start_date" = Some VNull ∧
      a !! "created_by" = Some (VStr "mrodriguez").
Proof.
  split; [exact sample_world_has_ids|].
  destruct (@create_announcement sample_libraries "2026-06-01T00:00:00" oid3
              "Exam week" "2026-06-30T00:00:00" "mrodriguez" None
              sample_world) as [[r|e] w1] eqn:Hrun;
    [|vm_compute in Hrun; discriminate Hrun].
  exists r, w1. split; [reflexivity|].
  exact (@create_then_list_all_round_trip sample_libraries _ _ _ _ _ _ _ _
           sample_world_has_ids Hrun).
Defined.

Lemma create_stores_start_date_witness :
  Forall has_id (announcements (db sample_world)) ∧
  ∃ r w',
    @create_announcement sample_libraries "2026-06-01T00:00:00" oid3
      "Exam week" "2026-06-30T00:00:00" "mrodriguez" None sample_world
    = (Return r, w') ∧
    ∃ d,
      announcements (db w') = announcements (db sample_world) ++ [d] ∧
      d !! "start_date" = Some VNull ∧
      clause_matches d (Field "start_date" (CEq VNull)) = true ∧
      (∀ t, clause_matches d (Field "start_date" (CLte (VStr t))) = false) ∧
      ∀ t,
        (matches (active_filter t) d = true
         ↔ str_le t "2026-06-30T00:00:00") ∧
        ∃ out,
          (get_active_announcements t w').1 = Return out ∧
          (r ∈ out ↔ str_le t "2026-06-30T00:00:00").
Proof.
  split; [exact sample_world_has_ids|].
  destruct (@create_announcement sample_libraries "2026-06-01T00:00:00" oid3
              "Exam week" "2026-06-30T00:00:00" "mrodriguez" None
              sample_world) as [[r|e] w'] eqn:Hrun;
    [|vm_compute in Hrun; discriminate Hrun].
  exists r, w'. split; [reflexivity|].
  destruct (@create_stores_start_date sample_libraries _ _ _ _ _ _ _ _ _
              Hrun) as (d & Hd & Hsd & Hnone).
  destruct (Hnone eq_refl) as (_ & Hnull & Hlte & Hfilter).
  exists d. split; [exact Hd|]. split; [exact Hsd|].
  split; [exact Hnull|]. split; [exact Hlte|].
  intros t. destruct (Hfilter t) as (_ & Hiff & Hlist).
  split; [exact Hiff|]. exact (Hlist sample_world_has_ids).
Defined.

(** C2 as stated fails: with a syntactically invalid identifier the user
    collection is read before anything else, so an unknown username gives
    401 rather than 400, and a known one gives 400 only after that read. *)
Lemma invalid_id_not_rejected_before_store_access :
  @ObjectId_of_str sample_libraries "not-an-id" = None ∧
  log sample_world = [] ∧
  @update_announcement sample_libraries "not-an-id" "Exam week"
    "2026-06-30T00:00:00" "ghost" None sample_world
  = (Raise (HTTPException 401 "Unauthorized"),
     World (db sample_world) [(teachers_collection, FindOne)]) ∧
  @delete_announcement sample_libraries "not-an-id" "ghost" sample_world
  = (Raise (HTTPException 401 "Unauthorized"),
     World (db sample_world) [(teachers_collection, FindOne)]) ∧
  @update_announcement sample_libraries "not-an-id" "Exam week"
    "2026-06-30T00:00:00" "mrodriguez" None sample_world
  = (Raise (HTTPException 400 "Invalid announcement ID"),
     World (db sample_world) [(teachers_collection, FindOne)]) ∧
  @delete_announcement sample_libraries "not-an-id" "mrodriguez" sample_world
  = (Raise (HTTPException 400 "Invalid announcement ID"),
     World (db sample_world) [(teachers_collection, FindOne)]).
Proof. repeat split; by_running. Qed.

(** C4 as stated fails: an empty start_date is supplied and does not
    parse, yet create succeeds and persists the record. *)
Lemma empty_start_date_accepted :
  has_user "mrodriguez" (teachers (db sample_world)) ∧
  @fromisoformat sample_libraries (replace_Z "") = None ∧
  (@create_announcement sample_libraries "2026-06-01T00:00:00" oid3
     "Exam week" "2026-06-30T00:00:00" "mrodriguez" (Some "")
     sample_world).1
  = Return (<["_id" := VStr "65a000000000000000000003"]>
              (new_announcement "2026-06-01T00:00:00" "Exam week"
                 "2026-06-30T00:00:00" "mrodriguez" (Some ""))) ∧
  announcements
    (db (@create_announcement sample_libraries "2026-06-01T00:00:00" oid3
           "Exam week" "2026-06-30T00:00:00" "mrodriguez" (Some "")
           sample_world).2)
  = announcements (db sample_world) ++
    [<["_id" := VOid oid3]>
       (new_announcement "2026-06-01T00:00:00" "Exam week"
          "2026-06-30T00:00:00" "mrodriguez" (Some ""))].
Proof.
  split; [exact sample_user_known|]. repeat split; by_running.
Qed.

(** C7 as stated fails for update: with a known user and a valid
    identifier that matches no record, an end_date that does not parse
    gives 400, not 404. *)
Lemma unmatched_id_with_bad_date_is_400 :
  has_user "mrodriguez" (teachers (db sample_world)) ∧
  @ObjectId_of_str sample_libraries "65a000000000000000000009"
  = Some (Oid "65a000000000000000000009") ∧
  ¬ has_oid (Oid "65a000000000000000000009")
      (announcements (db sample_world)) ∧
  (@update_announcement sample_libraries "65a000000000000000000009"
     "Exam week" "next week" "mrodriguez" None sample_world).1
  = Raise (HTTPException 400 "Invalid date format").
Proof.
  split; [exact sample_user_known|]. split; [by_running|].
  split; [exact sample_oid_unmatched|]. by_running.
Qed.

(** * Further properties of the handlers *)

(** ** Deleting *)

Lemma delete_one_first o (c : list document) i old :
  first_with_oid o c i old →
  coll_delete_one (by_id (VOid o)) c = (delete i c, 1).
Proof.
  revert i. induction c as [|d c IH]; intros [|i] (Hi & Hold & Hfirst);
    try done; cbn [coll_delete_one].
  - injection Hi as ->. apply matches_by_id in Hold; [|done].
    by rewrite Hold.
  - assert (matches (by_id (VOid o)) d = false) as Hd.
    { apply not_true_is_false. intros Hm. apply matches_by_id in Hm; [|done].
      by apply (Hfirst 0%nat d); [lia| |]. }
    rewrite Hd, (IH i); [done|].
    repeat split; try done. intros j e Hj He. apply (Hfirst (S j)); [lia|done].
Qed.

Lemma first_with_oid_has_oid o (c : list document) i old :
  first_with_oid o c i old → has_oid o c.
Proof.
  intros (Hi & Hold & _). exists old. split; [|done].
  by eapply list_elem_of_lookup_2.
Qed.

Lemma first_with_oid_unique o (c : list document) i old j old' :
  first_with_oid o c i old → first_with_oid o c j old' → i = j ∧ old = old'.
Proof.
  intros (Hi & Hold & Hfi) (Hj & Hold' & Hfj).
  destruct (Nat.lt_trichotomy i j) as [Hlt|[->|Hlt]].
  - by destruct (Hfj i old Hlt Hi).
  - split; [done|]. congruence.
  - by destruct (Hfi j old' Hlt Hj).
Qed.

Section further.
Context `{Libraries}.

Tactic Notation "enter" reference(handler) :=
  unfold handler, reraising, try_except.
Tactic Notation "step" uconstr(block) := rewrite bind_run, block by done.

Lemma delete_run id o i old username w :
  has_user username (teachers (db w)) →
  ObjectId_of_str id = Some o →
  first_with_oid o (announcements (db w)) i old →
  delete_announcement id username w =
  (Return {[ "message" := VStr "Announcement deleted successfully" ]},
   deleted i w).
Proof.
  intros Hu Hid Hfirst. enter delete_announcement.
  step verify_user_known.
  step (validate_id_valid _ o).
  rewrite bind_run, delete_one_run. cbn [get_coll logged db].
  rewrite (delete_one_first o _ i old) by done. cbn [fst snd].
  rewrite bool_decide_eq_false_2 by done.
  unfold deleted, logged. cbn [mret M_ret set_coll log db].
  by rewrite <- app_assoc.
Qed.

Lemma create_duplicate_run now g message end_date username start_date w :
  has_user username (teachers (db w)) →
  dates_pass end_date start_date →
  has_oid g (announcements (db w)) →
  create_announcement now g message end_date username start_date w =
  (Raise (HTTPException 500 "Failed to create announcement"),
   logged announcements_collection InsertOne
     (logged teachers_collection FindOne w)).
Proof.
  intros Hu Hd Hg. enter create_announcement.
  step verify_user_known.
  step validate_dates_pass.
  rewrite bind_run. unfold insert_one, store_call. cbn [get_coll logged db].
  rewrite insert_one_duplicate by (done || apply new_announcement_id).
  unfold raise, logged. cbn [set_coll log db]. by destruct (db w).
Qed.

(** ** Every run of a write handler *)

(** The runs of [create_announcement]: the four ways it can go. *)
Lemma create_cases now g message end_date username start_date w :
  let run := create_announcement now g message end_date username
               start_date w in
  (¬ has_user username (teachers (db w)) ∧
   run = (Raise (HTTPException 401 "Unauthorized"),
          logged teachers_collection FindOne w)) ∨
  (has_user username (teachers (db w)) ∧
   ¬ dates_pass end_date start_date ∧
   run = (Raise (HTTPException 400 "Invalid date format"),
          logged teachers_collection FindOne w)) ∨
  (has_user username (teachers (db w)) ∧
   dates_pass end_date start_date ∧
   has_oid g (announcements (db w)) ∧
   run = (Raise (HTTPException 500 "Failed to create announcement"),
          logged announcements_collection InsertOne
            (logged teachers_collection FindOne w))) ∨
  (has_user username (teachers (db w)) ∧
   dates_pass end_date start_date ∧
   ¬ has_oid g (announcements (db w)) ∧
   run = (Return (<["_id" := VStr (oid_hex g)]>
                    (new_announcement now message end_date username
                       start_date)),
          created now g message end_date username start_date w)).
Proof.
  cbv zeta.
  destruct (decide (has_user username (teachers (db w)))) as [Hu|Hu];
    [|left; split; [done|by apply create_unknown_user]].
  right. destruct (dates_pass_or_fail end_date start_date) as [Hd|Hd].
  - right. destruct (decide (has_oid g (announcements (db w)))) as [Hg|Hg].
    + left. do 3 (split; [done|]). by apply create_duplicate_run.
    + right. do 3 (split; [done|]). by apply create_run.
  - left. split; [done|]. split; [|by apply create_bad_dates].
    intros [[t Ht] Hs]. destruct Hd as [He|(s & -> & Hne & Hn)].
    + congruence.
    + destruct (Hs s eq_refl Hne) as [t' Ht']. congruence.
Qed.

(** The runs of [update_announcement]: the five ways it can go. *)
Lemma update_cases id message end_date username start_date w :
  let run := update_announcement id message end_date username start_date w in
  (¬ has_user username (teachers (db w)) ∧
   run = (Raise (HTTPException 401 "Unauthorized"),
          logged teachers_collection FindOne w)) ∨
  (has_user username (teachers (db w)) ∧
   ObjectId_of_str id = None ∧
   run = (Raise (HTTPException 400 "Invalid announcement ID"),
          logged teachers_collection FindOne w)) ∨
  (∃ o, has_user username (teachers (db w)) ∧
   ObjectId_of_str id = Some o ∧
   ¬ dates_pass end_date start_date ∧
   run = (Raise (HTTPException 400 "Invalid date format"),
          logged teachers_collection FindOne w)) ∨
  (∃ o, has_user username (teachers (db w)) ∧
   ObjectId_of_str id = Some o ∧
   dates_pass end_date start_date ∧
   ¬ has_oid o (announcements (db w)) ∧
   run = (Raise (HTTPException 404 "Announcement not found"),
          logged announcements_collection UpdateOne
            (logged teachers_collection FindOne w))) ∨
  (∃ o i old, has_user username (teachers (db w)) ∧
   ObjectId_of_str id = Some o ∧
   dates_pass end_date start_date ∧
   first_with_oid o (announcements (db w)) i old ∧
   run = (Return (with_str_id
                    (update_data message end_date start_date ∪ old)),
          updated i old message end_date start_date w)).
Proof.
  cbv zeta.
  destruct (decide (has_user username (teachers (db w)))) as [Hu|Hu];
    [|left; split; [done|by apply update_unknown_user]].
  right. destruct (ObjectId_of_str id) as [o|] eqn:Hid;
    [|left; do 2 (split; [done|]); by apply update_invalid_id].
  right. destruct (dates_pass_or_fail end_date start_date) as [Hd|Hd].
  - right. destruct (decide (has_oid o (announcements (db w)))) as [Ho|Ho].
    + right. destruct (has_oid_first _ _ Ho) as (i & old & Hfirst).
      exists o, i, old. do 4 (split; [done|]). by apply (update_run _ o).
    + left. exists o. do 4 (split; [done|]). by apply (update_not_found _ o).
  - left. exists o. split; [done|]. split; [done|].
    split; [|by apply (update_bad_dates _ o)].
    intros [[t Ht] Hs]. destruct Hd as [He|(s & -> & Hne & Hn)].
    + congruence.
    + destruct (Hs s eq_refl Hne) as [t' Ht']. congruence.
Qed.

(** The runs of [delete_announcement]: the four ways it can go. *)
Lemma delete_cases id username w :
  let run := delete_announcement id username w in
  (¬ has_user username (teachers (db w)) ∧
   run = (Raise (HTTPException 401 "Unauthorized"),
          logged teachers_collection FindOne w)) ∨
  (has_user username (teachers (db w)) ∧
   ObjectId_of_str id = None ∧
   run = (Raise (HTTPException 400 "Invalid announcement ID"),
          logged teachers_collection FindOne w)) ∨
  (∃ o, has_user username (teachers (db w)) ∧
   ObjectId_of_str id = Some o ∧
   ¬ has_oid o (announcements (db w)) ∧
   run = (Raise (HTTPException 404 "Announcement not found"),
          logged announcements_collection DeleteOne
            (logged teachers_collection FindOne w))) ∨
  (∃ o i old, has_user username (teachers (db w)) ∧
   ObjectId_of_str id = Some o ∧
   first_with_oid o (announcements (db w)) i old ∧
   run = (Return {[ "message" := VStr "Announcement deleted successfully" ]},
          deleted i w)).
Proof.
  cbv zeta.
  destruct (decide (has_user username (teachers (db w)))) as [Hu|Hu];
    [|left; split; [done|by apply delete_unknown_user]].
  right. destruct (ObjectId_of_str id) as [o|] eqn:Hid;
    [|left; do 2 (split; [done|]); by apply delete_invalid_id].
  right. destruct (decide (has_oid o (announcements (db w)))) as [Ho|Ho].
  - right. destruct (has_oid_first _ _ Ho) as (i & old & Hfirst).
    exists o, i, old. do 3 (split; [done|]). by apply (delete_run _ o _ old).
  - left. exists o. do 3 (split; [done|]). by apply (delete_not_found _ o).
Qed.

(** Case analysis on the run of a write handler. *)
Ltac create_run_cases now g message end_date username start_date w :=
  destruct (create_cases now g message end_date username start_date w)
    as [(Hu & Hrun)|[(Hu & Hd & Hrun)|[(Hu & Hd & Hg & Hrun)
       |(Hu & Hd & Hg & Hrun)]]];
  cbv zeta in Hrun; rewrite Hrun.
Ltac update_run_cases id message end_date username start_date w :=
  destruct (update_cases id message end_date username start_date w)
    as [(Hu & Hrun)|[(Hu & Hid & Hrun)|[(o & Hu & Hid & Hd & Hrun)
       |[(o & Hu & Hid & Hd & Ho & Hrun)
        |(o & i & old & Hu & Hid & Hd & Hfirst & Hrun)]]]];
  cbv zeta in Hrun; rewrite Hrun.
Ltac delete_run_cases id username w :=
  destruct (delete_cases id username w)
    as [(Hu & Hrun)|[(Hu & Hid & Hrun)|[(o & Hu & Hid & Ho & Hrun)
       |(o & i & old & Hu & Hid & Hfirst & Hrun)]]];
  cbv zeta in Hrun; rewrite Hrun.

(** X1: a write handler that rejects a request has changed nothing:
    whenever create, update or delete answers 400, 401 or 404, both
    collections are as they were.  The three statuses are raised either
    before any write or after a write that matched no record. *)
Theorem rejected_write_changes_nothing
    now g id message end_date username start_date w :
  let cre := create_announcement now g message end_date username
               start_date w in
  let upd := update_announcement id message end_date username start_date w in
  let del := delete_announcement id username w in
  ∀ status_code detail,
    status_code = 400 ∨ status_code = 401 ∨ status_code = 404 →
    (cre.1 = Raise (HTTPException status_code detail) → db cre.2 = db w) ∧
    (upd.1 = Raise (HTTPException status_code detail) → db upd.2 = db w) ∧
    (del.1 = Raise (HTTPException status_code detail) → db del.2 = db w).
Proof.
  cbv zeta. intros status_code detail _. split; [|split].
  - create_run_cases now g message end_date username start_date w; done.
  - update_run_cases id message end_date username start_date w; done.
  - delete_run_cases id username w; done.
Qed.

(** X2: a write handler never lets another exception through: every
    failure of create, update and delete is an HTTPException whose status
    is 400, 401, 404 or 500. *)
Theorem write_failures_are_http
    now g id message end_date username start_date w e :
  (create_announcement now g message end_date username start_date w).1
  = Raise e ∨
  (update_announcement id message end_date username start_date w).1
  = Raise e ∨
  (delete_announcement id username w).1 = Raise e →
  ∃ status_code detail,
    e = HTTPException status_code detail ∧
    (status_code = 400 ∨ status_code = 401 ∨
     status_code = 404 ∨ status_code = 500).
Proof.
  intros [He|[He|He]]; revert He.
  - create_run_cases now g message end_date username start_date w;
      intros [= <-]; eexists _, _; split; try done; tauto.
  - update_run_cases id message end_date username start_date w;
      intros [= <-]; eexists _, _; split; try done; tauto.
  - delete_run_cases id username w;
      intros [= <-]; eexists _, _; split; try done; tauto.
Qed.

(** X3: the answer is 401 Unauthorized exactly when no user record has the
    username as its identifier, for create, update and delete alike. *)
Theorem unauthorized_iff_unknown_user
    now g id message end_date username start_date w :
  ((create_announcement now g message end_date username start_date w).1
   = Raise (HTTPException 401 "Unauthorized")
   ↔ ¬ has_user username (teachers (db w))) ∧
  ((update_announcement id message end_date username start_date w).1
   = Raise (HTTPException 401 "Unauthorized")
   ↔ ¬ has_user username (teachers (db w))) ∧
  ((delete_announcement id username w).1
   = Raise (HTTPException 401 "Unauthorized")
   ↔ ¬ has_user username (teachers (db w))).
Proof.
  split; [|split].
  - create_run_cases now g message end_date username start_date w;
      split; done.
  - update_run_cases id message end_date username start_date w;
      split; done.
  - delete_run_cases id username w; split; done.
Qed.

(** X4: the handlers succeed exactly when their checks pass, and nothing
    else is asked: create when the user exists, the dates pass and the
    generated identifier is new; update when the user exists, the
    identifier is valid, the dates pass and a record carries the
    identifier; delete likewise without the dates.  Who created the record
    plays no part. *)
Theorem success_iff_checks_pass
    now g id message end_date username start_date w :
  ((∃ r, (create_announcement now g message end_date username
            start_date w).1 = Return r)
   ↔ has_user username (teachers (db w)) ∧
     dates_pass end_date start_date ∧
     ¬ has_oid g (announcements (db w))) ∧
  ((∃ r, (update_announcement id message end_date username
            start_date w).1 = Return r)
   ↔ has_user username (teachers (db w)) ∧
     dates_pass end_date start_date ∧
     ∃ o, ObjectId_of_str id = Some o ∧ has_oid o (announcements (db w))) ∧
  ((∃ r, (delete_announcement id username w).1 = Return r)
   ↔ has_user username (teachers (db w)) ∧
     ∃ o, ObjectId_of_str id = Some o ∧ has_oid o (announcements (db w))).
Proof.
  split; [|split].
  - create_run_cases now g message end_date username start_date w;
      (split; [intros [r Hr]; try done | intros (? & ? & ?); try done]).
    by eexists.
  - update_run_cases id message end_date username start_date w;
      (split; [intros [r Hr]; try done
              | intros (? & ? & o' & Ho' & Hh); try done;
                try congruence]).
    + do 2 (split; [done|]). exists o. split; [done|].
      by eapply first_with_oid_has_oid.
    + by eexists.
  - delete_run_cases id username w;
      (split; [intros [r Hr]; try done
              | intros (? & o' & Ho' & Hh); try done; try congruence]).
    + split; [done|]. exists o. split; [done|].
      by eapply first_with_oid_has_oid.
    + by eexists.
Qed.

(** ** What the successful runs do *)

(** X5: delete by an existing user, with a valid identifier that some
    record carries, succeeds with the acknowledgement and removes exactly
    the first record with that identifier: the records before and after it
    stay, in their order, and the user collection is untouched. *)
Theorem delete_removes_first_match id o username w :
  has_user username (teachers (db w)) →
  ObjectId_of_str id = Some o →
  has_oid o (announcements (db w)) →
  ∃ i old,
    first_with_oid o (announcements (db w)) i old ∧
    (delete_announcement id username w).1
    = Return {[ "message" := VStr "Announcement deleted successfully" ]} ∧
    announcements (db (delete_announcement id username w).2)
    = take i (announcements (db w)) ++ drop (S i) (announcements (db w)) ∧
    teachers (db (delete_announcement id username w).2) = teachers (db w).
Proof.
  intros Hu Hid Ho. destruct (has_oid_first _ _ Ho) as (i & old & Hfirst).
  exists i, old. rewrite (delete_run _ o i old) by done.
  split; [done|]. split; [done|]. split; [|done].
  unfold deleted. cbn [snd db announcements]. apply delete_take_drop.
Qed.

(** X6: create by an existing user, with dates that pass and an
    identifier the collection does not hold yet, appends exactly one
    record and keeps the others: the record carries the generated
    identifier, the arguments as given, created_by the username and
    created_at the server clock; the handler returns it with the
    identifier as a string. *)
Theorem create_appends_one_record
    now g message end_date username start_date w :
  has_user username (teachers (db w)) →
  dates_pass end_date start_date →
  ¬ has_oid g (announcements (db w)) →
  ∃ d,
    (create_announcement now g message end_date username start_date w).1
    = Return (with_str_id d) ∧
    announcements
      (db (create_announcement now g message end_date username
             start_date w).2)
    = announcements (db w) ++ [d] ∧
    teachers
      (db (create_announcement now g message end_date username
             start_date w).2)
    = teachers (db w) ∧
    d !! "_id" = Some (VOid g) ∧
    d !! "message" = Some (VStr message) ∧
    d !! "start_date" = Some (of_optional start_date) ∧
    d !! "end_date" = Some (VStr end_date) ∧
    d !! "created_by" = Some (VStr username) ∧
    d !! "created_at" = Some (VStr now).
Proof.
  intros Hu Hd Hg. rewrite create_run by done.
  exists (<["_id" := VOid g]>
            (new_announcement now message end_date username start_date)).
  split.
  { unfold with_str_id, field. rewrite lookup_insert_eq. simpl.
    by rewrite insert_insert_eq. }
  unfold new_announcement. repeat split; by simplify_map_eq.
Qed.

(** X7: what a successful update returns is the record as it is now
    stored, with its identifier as a string: the new message, start_date
    and end_date, and the created_by and created_at the record had. *)
Theorem update_returns_stored_record
    id message end_date username start_date w r w' :
  update_announcement id message end_date username start_date w
  = (Return r, w') →
  ∃ o i old new,
    ObjectId_of_str id = Some o ∧
    announcements (db w) !! i = Some old ∧
    announcements (db w') !! i = Some new ∧
    r = with_str_id new ∧
    r !! "_id" = Some (VStr (oid_hex o)) ∧
    r !! "message" = Some (VStr message) ∧
    r !! "start_date" = Some (of_optional start_date) ∧
    r !! "end_date" = Some (VStr end_date) ∧
    r !! "created_by" = old !! "created_by" ∧
    r !! "created_at" = old !! "created_at".
Proof.
  intros Hrun. apply update_inv in Hrun
    as (o & i & old & Hid & (Hi & Hold & _) & -> & ->).
  exists o, i, old, (update_data message end_date start_date ∪ old).
  split; [done|]. split; [done|]. split.
  { unfold updated. cbn [db announcements].
    apply list_lookup_insert_eq. by eapply lookup_lt_Some. }
  split; [done|].
  assert ((update_data message end_date start_date ∪ old) !! "_id"
          = Some (VOid o)) as Hnew.
  { rewrite lookup_union_r; [done|apply update_data_id]. }
  unfold with_str_id, field. rewrite Hnew. cbn [default str].
  rewrite lookup_insert_eq. split; [done|].
  rewrite !lookup_insert_ne by done.
  repeat split.
  - apply lookup_union_Some_l. unfold update_data. by simplify_map_eq.
  - apply lookup_union_Some_l. unfold update_data. by simplify_map_eq.
  - apply lookup_union_Some_l. unfold update_data. by simplify_map_eq.
  - apply lookup_union_r. unfold update_data. by simplify_map_eq.
  - apply lookup_union_r. unfold update_data. by simplify_map_eq.
Qed.

(** ** The invariant of the collection *)

Lemma store_ok_append g (d : document) (c : list document) :
  store_ok c → ¬ has_oid g c → d !! "_id" = Some (VOid g) →
  store_ok (c ++ [d]).
Proof.
  intros [Hid Hnd] Hg Hd. split.
  - apply Forall_app. split; [done|]. apply Forall_singleton. by eexists.
  - unfold ids. rewrite fmap_app. apply NoDup_app. split; [done|].
    split; [|apply NoDup_singleton].
    intros x Hx Hx'. apply list_elem_of_singleton in Hx'. subst x.
    apply list_elem_of_fmap in Hx as (e & He & Hin).
    apply Hg. exists e. split; [done|]. by rewrite <- He, Hd.
Qed.

Lemma store_ok_insert (c : list document) i (old new : document) :
  store_ok c → c !! i = Some old → new !! "_id" = old !! "_id" →
  store_ok (<[i := new]> c).
Proof.
  intros [Hid Hnd] Hi Hnew. split.
  - apply Forall_insert; [done|]. unfold has_id. rewrite Hnew.
    rewrite Forall_forall in Hid. apply Hid. by eapply list_elem_of_lookup_2.
  - unfold ids. rewrite list_fmap_insert, list_insert_id; [done|].
    rewrite list_lookup_fmap, Hi. simpl. by rewrite Hnew.
Qed.

Lemma store_ok_delete (c : list document) i :
  store_ok c → store_ok (delete i c).
Proof.
  intros [Hid Hnd]. split; [by apply Forall_delete|].
  unfold ids. rewrite list_fmap_delete.
  eapply sublist_NoDup; [exact Hnd | apply sublist_delete].
Qed.

(** X8: the write handlers keep the invariant of the announcement
    collection: if every record has an identifier and no two records
    share one, the same holds after create, after update and after
    delete, whether they succeed or fail. *)
Theorem writes_keep_identifiers_unique
    now g id message end_date username start_date w :
  store_ok (announcements (db w)) →
  store_ok
    (announcements
       (db (create_announcement now g message end_date username
              start_date w).2)) ∧
  store_ok
    (announcements
       (db (update_announcement id message end_date username
              start_date w).2)) ∧
  store_ok (announcements (db (delete_announcement id username w).2)).
Proof.
  intros Hok. split; [|split].
  - create_run_cases now g message end_date username start_date w;
      try done.
    unfold created. cbn [snd db announcements].
    apply (store_ok_append g); [done..|]. by rewrite lookup_insert_eq.
  - update_run_cases id message end_date username start_date w; try done.
    destruct Hfirst as (Hi & Hold & _).
    unfold updated. cbn [snd db announcements].
    apply (store_ok_insert _ _ old); [done..|].
    apply lookup_union_r, update_data_id.
  - delete_run_cases id username w; try done.
    unfold deleted. cbn [snd db announcements]. by apply store_ok_delete.
Qed.

(** X9: no write handler ever writes the user collection, and each one
    starts with the existence check on it: the store calls of a run are
    that FindOne, followed by at most two calls, all of them on the
    announcement collection. *)
Theorem writes_only_read_users
    now g id message end_date username start_date w :
  user_check_then_announcements w
    (create_announcement now g message end_date username start_date w).2 ∧
  user_check_then_announcements w
    (update_announcement id message end_date username start_date w).2 ∧
  user_check_then_announcements w (delete_announcement id username w).2.
Proof.
  unfold user_check_then_announcements. split; [|split].
  - create_run_cases now g message end_date username start_date w;
      (split; [done|]); unfold created, logged; cbn [snd log db];
      rewrite <- ?app_assoc; eexists; (split; [done|]);
      split; simpl; try lia; repeat constructor.
  - update_run_cases id message end_date username start_date w;
      (split; [done|]); unfold updated, logged; cbn [snd log db];
      rewrite <- ?app_assoc; eexists; (split; [done|]);
      split; simpl; try lia; repeat constructor.
  - delete_run_cases id username w;
      (split; [done|]); unfold deleted, logged; cbn [snd log db];
      rewrite <- ?app_assoc; eexists; (split; [done|]);
      split; simpl; try lia; repeat constructor.
Qed.

(** ** How the handlers compose *)

Lemma update_data_absorbs message end_date start_date (old : document) :
  update_data message end_date start_date ∪
    (update_data message end_date start_date ∪ old)
  = update_data message end_date start_date ∪ old.
Proof. by rewrite (assoc_L (∪)), (idemp_L (∪)). Qed.

(** X10: update is idempotent: repeating a successful update with the
    same arguments succeeds again, returns the same record and leaves the
    database as the first update left it. *)
Theorem update_twice_is_update_once
    id message end_date username start_date w r w1 :
  update_announcement id message end_date username start_date w
  = (Return r, w1) →
  (update_announcement id message end_date username start_date w1).1
  = Return r ∧
  db (update_announcement id message end_date username start_date w1).2
  = db w1.
Proof.
  intros Hrun1.
  destruct (update_cases id message end_date username start_date w)
    as [(_ & Hrun)|[(_ & _ & Hrun)|[(o & _ & _ & _ & Hrun)
       |[(o & _ & _ & _ & _ & Hrun)
        |(o & i & old & Hu & Hid & Hd & Hfirst & Hrun)]]]];
    cbv zeta in Hrun; rewrite Hrun in Hrun1; try done.
  injection Hrun1 as <- <-. destruct Hfirst as (Hi & Hold & Hbefore).
  set (new := update_data message end_date start_date ∪ old).
  assert (new !! "_id" = Some (VOid o)) as Hnew.
  { unfold new. rewrite lookup_union_r; [done|apply update_data_id]. }
  rewrite (update_run _ o i new).
  - unfold new. rewrite update_data_absorbs. split; [done|].
    unfold updated. cbn [snd db announcements teachers].
    by rewrite update_data_absorbs, list_insert_insert_eq.
  - done.
  - done.
  - done.
  - unfold updated. cbn [db announcements]. split; [|split; [done|]].
    + apply list_lookup_insert_eq. by eapply lookup_lt_Some.
    + intros j e Hj He. rewrite list_lookup_insert_ne in He by lia.
      by apply (Hbefore j).
Qed.

(** X11: create then delete is a round trip: deleting the identifier a
    successful create returned, when the library reads that string back
    as the generated ObjectId, succeeds and puts the database back as it
    was before the create. *)
Theorem create_then_delete_restores
    now g message end_date username start_date w r w1 id :
  create_announcement now g message end_date username start_date w
  = (Return r, w1) →
  r !! "_id" = Some (VStr id) →
  ObjectId_of_str id = Some g →
  (delete_announcement id username w1).1
  = Return {[ "message" := VStr "Announcement deleted successfully" ]} ∧
  db (delete_announcement id username w1).2 = db w.
Proof.
  intros Hrun1 _ Hid.
  destruct (create_cases now g message end_date username start_date w)
    as [(_ & Hrun)|[(_ & _ & Hrun)|[(_ & _ & _ & Hrun)
       |(Hu & Hd & Hg & Hrun)]]];
    cbv zeta in Hrun; rewrite Hrun in Hrun1; try done.
  injection Hrun1 as <- <-.
  set (d := <["_id" := VOid g]>
              (new_announcement now message end_date username start_date)).
  rewrite (delete_run _ g (length (announcements (db w))) d).
  - split; [done|]. unfold deleted, created. fold d.
    cbn [snd db announcements teachers].
    rewrite delete_middle, app_nil_r. by destruct (db w).
  - done.
  - done.
  - unfold created. fold d. cbn [db announcements].
    split; [by apply list_lookup_middle|].
    split; [unfold d; by rewrite lookup_insert_eq|].
    intros j e Hj He Hid'. rewrite lookup_app_l in He by done.
    apply Hg. exists e. split; [|done]. by eapply list_elem_of_lookup_2.
Qed.

Lemma deleted_oid_is_gone o (c : list document) i old :
  NoDup (ids c) → first_with_oid o c i old → ¬ has_oid o (delete i c).
Proof.
  intros Hnd (Hi & Hold & _) (d & Hd & Hid).
  apply list_elem_of_lookup in Hd as [j Hj].
  assert (∃ k, k ≠ i ∧ c !! k = Some d) as (k & Hk & Hck).
  { destruct (decide (j < i)%nat).
    - exists j. split; [lia|]. by rewrite list_lookup_delete_lt in Hj.
    - exists (S j). split; [lia|]. by rewrite list_lookup_delete_ge in Hj by lia. }
  apply Hk. apply (NoDup_lookup (ids c) k i (Some (VOid o))); [done|..].
  - unfold ids. by rewrite list_lookup_fmap, Hck; simpl; rewrite Hid.
  - unfold ids. by rewrite list_lookup_fmap, Hi; simpl; rewrite Hold.
Qed.

(** X12: when no two records share an identifier, a deleted record is
    gone: after a successful delete, deleting the same identifier again
    answers 404 NotFound and changes nothing. *)
Theorem delete_twice_not_found id username w r w1 :
  NoDup (ids (announcements (db w))) →
  delete_announcement id username w = (Return r, w1) →
  (delete_announcement id username w1).1
  = Raise (HTTPException 404 "Announcement not found") ∧
  db (delete_announcement id username w1).2 = db w1.
Proof.
  intros Hnd Hrun1.
  destruct (delete_cases id username w)
    as [(_ & Hrun)|[(_ & _ & Hrun)|[(o & _ & _ & _ & Hrun)
       |(o & i & old & Hu & Hid & Hfirst & Hrun)]]];
    cbv zeta in Hrun; rewrite Hrun in Hrun1; try done.
  injection Hrun1 as <- <-.
  rewrite (delete_not_found _ o); [done..|].
  unfold deleted. cbn [db announcements]. by eapply deleted_oid_is_gone.
Qed.

(** X13: what a successful update returns is what get_all_announcements
    lists right after it. *)
Theorem update_then_list_all
    id message end_date username start_date w r w1 :
  Forall has_id (announcements (db w)) →
  update_announcement id message end_date username start_date w
  = (Return r, w1) →
  ∃ out, (get_all_announcements w1).1 = Return out ∧ r ∈ out.
Proof.
  intros Hids Hrun. apply update_inv in Hrun
    as (o & i & old & Hid & (Hi & Hold & _) & -> & ->).
  set (new := update_data message end_date start_date ∪ old).
  assert (has_id new) as Hnew.
  { exists (VOid o). unfold new.
    rewrite lookup_union_r; [done|apply update_data_id]. }
  rewrite get_all_run.
  - eexists. split; [done|]. apply list_elem_of_fmap_2.
    unfold sort_desc. rewrite merge_sort_Permutation.
    unfold updated. cbn [db announcements].
    eapply list_elem_of_lookup_2. apply list_lookup_insert_eq.
    by eapply lookup_lt_Some.
  - unfold updated. cbn [db announcements]. by apply Forall_insert.
Qed.

(** X14: create sets no condition on when the dates lie, and the active
    list decides on them alone: the record a successful create returned
    is listed by get_active_announcements at a clock reading now exactly
    when now <= end_date and the start_date was omitted or is <= now.  A
    record created with its end_date already past is never listed. *)
Theorem created_listed_while_in_range
    now0 g message end_date username start_date w r w1 now :
  Forall has_id (announcements (db w)) →
  create_announcement now0 g message end_date username start_date w
  = (Return r, w1) →
  ∃ out,
    (get_active_announcements now w1).1 = Return out ∧
    (r ∈ out ↔
     str_le now end_date ∧
     (start_date = None ∨ ∃ s, start_date = Some s ∧ str_le s now)).
Proof. apply created_record_active. Qed.

(** X15: an empty start_date delays nothing: a record created with the
    start_date omitted or empty is listed by get_active_announcements
    exactly while now <= end_date. *)
Theorem falsy_start_date_is_active_at_once
    now0 g message end_date username start_date w r w1 now :
  Forall has_id (announcements (db w)) →
  truthy_str start_date = false →
  create_announcement now0 g message end_date username start_date w
  = (Return r, w1) →
  ∃ out,
    (get_active_announcements now w1).1 = Return out ∧
    (r ∈ out ↔ str_le now end_date).
Proof.
  intros Hids Hfalsy Hrun.
  destruct (created_record_active _ _ _ _ _ _ _ _ _ now Hids Hrun)
    as (out & Hout & Hiff).
  exists out. split; [done|]. rewrite Hiff. split; [by intros [? _]|].
  intros Hle. split; [done|]. destruct start_date as [s|]; [|by left].
  right. exists s. split; [done|]. simpl in Hfalsy.
  apply negb_false_iff, String.eqb_eq in Hfalsy. subst s.
  apply str_le_empty.
Qed.

End further.

(** ** The read handlers *)

Lemma mapM_stringify_id_world (l : list document) (w : world) :
  (mapM stringify_id l w).2 = w.
Proof.
  induction l as [|d l IH]; [done|]. simpl. rewrite bind_run.
  unfold stringify_id at 1, getitem. destruct (d !! "_id") as [v|]; [|done].
  simpl. rewrite bind_run.
  destruct (mapM stringify_id l w) as [[out|e] w'] eqn:E; simpl in *;
    by subst.
Qed.

Lemma failing_500_outcome {A} detail (m : M A) (w : world) e :
  (failing_500 detail m w).1 = Raise e → e = HTTPException 500 detail.
Proof.
  unfold failing_500, try_except. destruct (m w) as [[a|e'] w']; [done|].
  by intros [= <-].
Qed.

(** X16: the read handlers change nothing: whatever the store holds,
    get_active_announcements and get_all_announcements leave both
    collections as they were, make one Find call on the announcement
    collection and none on the user collection, and their only failure is
    500 "Failed to fetch announcements". *)
Theorem reads_change_nothing (now : string) (w : world) :
  let act := get_active_announcements now w in
  let all := get_all_announcements w in
  db act.2 = db w ∧
  log act.2 = log w ++ [(announcements_collection, Find)] ∧
  db all.2 = db w ∧
  log all.2 = log w ++ [(announcements_collection, Find)] ∧
  ∀ e, act.1 = Raise e ∨ all.1 = Raise e →
       e = HTTPException 500 "Failed to fetch announcements".
Proof.
  cbv zeta.
  assert (∀ l w0, (failing_500 "Failed to fetch announcements"
                     (mapM stringify_id l) w0).2 = w0) as Hworld.
  { intros l w0. pose proof (mapM_stringify_id_world l w0) as Hw.
    unfold failing_500, try_except.
    by destruct (mapM stringify_id l w0) as [[out|e] w']. }
  assert (∀ q, (get_active_announcements q w).2
               = logged announcements_collection Find w) as Hact.
  { intros q. unfold get_active_announcements, failing_500, try_except.
    rewrite bind_run, find_run.
    pose proof (mapM_stringify_id_world
                  (coll_find (active_filter q)
                     (get_coll announcements_collection (db w)))
                  (logged announcements_collection Find w)) as Hw.
    by destruct (mapM stringify_id _ _) as [[out|e] w']. }
  assert ((get_all_announcements w).2
          = logged announcements_collection Find w) as Hall.
  { unfold get_all_announcements, failing_500, try_except.
    rewrite bind_run, find_sorted_run.
    pose proof (mapM_stringify_id_world
                  (sort_desc "created_at"
                     (coll_find [] (get_coll announcements_collection
                                      (db w))))
                  (logged announcements_collection Find w)) as Hw.
    by destruct (mapM stringify_id _ _) as [[out|e] w']. }
  rewrite Hact, Hall. repeat split; try done.
  intros e [He|He]; by eapply failing_500_outcome.
Qed.

(** X17: the active period of a record is one stretch of time: a record
    that the filter of get_active_announcements matches at two clock
    readings is matched at every reading between them. *)
Theorem active_period_is_contiguous (n1 n n2 : string) (a : document) :
  matches (active_filter n1) a = true →
  matches (active_filter n2) a = true →
  str_le n1 n → str_le n n2 →
  matches (active_filter n) a = true.
Proof.
  rewrite !matches_active.
  intros [_ Hstart] [(e & He & Hle) _] H1 H2. split.
  - exists e. split; [done|]. by eapply str_le_trans.
  - destruct Hstart as [?|(s & Hs & Hle')]; [by left|].
    right. exists s. split; [done|]. by eapply str_le_trans.
Qed.

(** X18: nothing orders the two dates of a record, and a record whose
    start_date is after its end_date is never active: the filter of
    get_active_announcements matches it at no clock reading. *)
Theorem start_after_end_never_active (a : document) (s e now : string) :
  a !! "start_date" = Some (VStr s) →
  a !! "end_date" = Some (VStr e) →
  ¬ str_le s e →
  matches (active_filter now) a = false.
Proof.
  intros Hs He Hse. apply not_true_is_false. rewrite matches_active.
  intros [(e' & He' & Hle) Hstart]. apply Hse.
  assert (e' = e) as -> by congruence.
  destruct Hstart as [[?|?]|(s' & Hs' & Hle')]; try congruence.
  assert (s' = s) as -> by congruence. by eapply str_le_trans.
Qed.

Lemma coll_find_sublist q (c : list document) : coll_find q c `sublist_of` c.
Proof.
  unfold coll_find. induction c as [|d c IH]; simpl; [constructor|].
  destruct (matches q d); by constructor.
Qed.

(** X19: the active list is part of the full list: every record
    get_active_announcements returns is also returned by
    get_all_announcements, and the active records come in the order the
    store holds them. *)
Theorem active_is_part_of_all (now : string) (w : world) :
  Forall has_id (announcements (db w)) →
  ∃ act all,
    (get_active_announcements now w).1 = Return act ∧
    (get_all_announcements w).1 = Return all ∧
    (∀ a, a ∈ act → a ∈ all) ∧
    act `sublist_of` (with_str_id <$> announcements (db w)).
Proof.
  intros Hids. rewrite get_active_run, get_all_run by done.
  eexists _, _. split; [done|]. split; [done|].
  pose proof (coll_find_sublist (active_filter now) (announcements (db w)))
    as Hsub.
  split; [|by apply fmap_sublist].
  intros a (b & -> & Hb)%list_elem_of_fmap. apply list_elem_of_fmap_2.
  unfold sort_desc. rewrite merge_sort_Permutation.
  by eapply elem_of_sublist.
Qed.

(** X20: the rewriting applied to a date before it is parsed leaves no Z
    behind, and leaves a date without a Z as it is. *)
Theorem replace_Z_leaves_no_Z (s : string) :
  has_Z (replace_Z s) = false ∧ (has_Z s = false → replace_Z s = s).
Proof.
  induction s as [|c s [IH1 IH2]]; [done|]. simpl.
  destruct (Ascii.eqb c "Z") eqn:Hc; simpl.
  - split; [done|discriminate].
  - rewrite Hc. split; [done|]. intros Hs. by rewrite IH2.
Qed.

(** ** The further properties on the sample database *)

Lemma sample_dates_pass :
  @dates_pass sample_libraries "2026-06-30T00:00:00" None.
Proof. split; [eexists; by_running | discriminate]. Defined.

Lemma sample_oid3_new : ¬ has_oid oid3 (announcements (db sample_world)).
Proof.
  intros (d & Hd & Hid). cbn [sample_world db announcements] in Hd.
  rewrite !elem_of_cons, elem_of_nil in Hd.
  destruct Hd as [->|[->|[]]]; vm_compute in Hid; discriminate Hid.
Defined.

Lemma sample_oid2_held : has_oid oid2 (announcements (db sample_world)).
Proof.
  exists sample_new. split; [|by_running].
  apply list_elem_of_further, list_elem_of_here.
Defined.

Lemma sample_ids_unique : NoDup (ids (announcements (db sample_world))).
Proof. apply (bool_decide_unpack _). vm_compute. exact I. Defined.

Lemma sample_store_ok : store_ok (announcements (db sample_world)).
Proof. split; [exact sample_world_has_ids | exact sample_ids_unique]. Defined.

Lemma rejected_write_changes_nothing_witness :
  (@update_announcement sample_libraries "65a000000000000000000009"
     "Exam week" "2026-06-30T00:00:00" "mrodriguez" None sample_world).1
  = Raise (HTTPException 404 "Announcement not found") ∧
  log (@update_announcement sample_libraries "65a000000000000000000009"
         "Exam week" "2026-06-30T00:00:00" "mrodriguez" None sample_world).2
  = [(teachers_collection, FindOne); (announcements_collection, UpdateOne)] ∧
  db (@update_announcement sample_libraries "65a000000000000000000009"
        "Exam week" "2026-06-30T00:00:00" "mrodriguez" None sample_world).2
  = db sample_world.
Proof.
  split; [by_running|]. split; [by_running|].
  destruct (@rejected_write_changes_nothing sample_libraries
              "2026-06-01T00:00:00" oid3 "65a000000000000000000009"
              "Exam week" "2026-06-30T00:00:00" "mrodriguez" None
              sample_world 404 "Announcement not found"
              (or_intror (or_intror eq_refl)))
    as (_ & Hupd & _).
  apply Hupd. by_running.
Defined.

Lemma write_failures_are_http_witness :
  ∃ status_code detail,
    HTTPException 404 "Announcement not found"
    = HTTPException status_code detail ∧
    (status_code = 400 ∨ status_code = 401 ∨
     status_code = 404 ∨ status_code = 500).
Proof.
  apply (@write_failures_are_http sample_libraries
           "2026-06-01T00:00:00" oid3 "65a000000000000000000009"
           "Exam week" "2026-06-30T00:00:00" "mrodriguez" None sample_world).
  right. right. by_running.
Defined.

Lemma delete_removes_first_match_witness :
  has_user "mrodriguez" (teachers (db sample_world)) ∧
  has_oid oid2 (announcements (db sample_world)) ∧
  ∃ i old,
    first_with_oid oid2 (announcements (db sample_world)) i old ∧
    (@delete_announcement sample_libraries "65a000000000000000000002"
       "mrodriguez" sample_world).1
    = Return {[ "message" := VStr "Announcement deleted successfully" ]} ∧
    announcements
      (db (@delete_announcement sample_libraries "65a000000000000000000002"
             "mrodriguez" sample_world).2)
    = take i (announcements (db sample_world)) ++
      drop (S i) (announcements (db sample_world)) ∧
    teachers
      (db (@delete_announcement sample_libraries "65a000000000000000000002"
             "mrodriguez" sample_world).2)
    = teachers (db sample_world).
Proof.
  split; [exact sample_user_known|]. split; [exact sample_oid2_held|].
  exact (@delete_removes_first_match sample_libraries
           "65a000000000000000000002" oid2 "mrodriguez" sample_world
           sample_user_known eq_refl sample_oid2_held).
Defined.

Lemma create_appends_one_record_witness :
  ∃ d,
    (@create_announcement sample_libraries "2026-06-01T00:00:00" oid3
       "Exam week" "2026-06-30T00:00:00" "mrodriguez" None sample_world).1
    = Return (with_str_id d) ∧
    announcements
      (db (@create_announcement sample_libraries "2026-06-01T00:00:00" oid3
             "Exam week" "2026-06-30T00:00:00" "mrodriguez" None
             sample_world).2)
    = [sample_old; sample_new; d] ∧
    d !! "_id" = Some (VOid oid3) ∧
    d !! "created_by" = Some (VStr "mrodriguez") ∧
    d !! "created_at" = Some (VStr "2026-06-01T00:00:00").
Proof.
  destruct (@create_appends_one_record sample_libraries
              "2026-06-01T00:00:00" oid3 "Exam week" "2026-06-30T00:00:00"
              "mrodriguez" None sample_world sample_user_known
              sample_dates_pass sample_oid3_new)
    as (d & Hr & Hc & _ & Hid & _ & _ & _ & Hby & Hat).
  exists d. by repeat split.
Defined.

Lemma update_returns_stored_record_witness :
  ∃ r w',
    @update_announcement sample_libraries "65A000000000000000000002"
      "Science fair moved" "2027-01-31T18:00:00" "mrodriguez" None
      sample_world = (Return r, w') ∧
    r !! "_id" = Some (VStr "65a000000000000000000002") ∧
    r !! "message" = Some (VStr "Science fair moved") ∧
    r !! "end_date" = Some (VStr "2027-01-31T18:00:00").
Proof.
  destruct (@update_announcement sample_libraries "65A000000000000000000002"
              "Science fair moved" "2027-01-31T18:00:00" "mrodriguez" None
              sample_world) as [[r|e] w'] eqn:Hrun;
    [|vm_compute in Hrun; discriminate Hrun].
  exists r, w'. split; [reflexivity|].
  destruct (@update_returns_stored_record sample_libraries _ _ _ _ _ _ _ _
              Hrun)
    as (o & i & old & new & Ho & _ & _ & _ & Hid & Hm & _ & He & _).
  injection Ho as <-. by repeat split.
Defined.

Lemma writes_keep_identifiers_unique_witness :
  store_ok (announcements (db sample_world)) ∧
  store_ok
    (announcements
       (db (@create_announcement sample_libraries "2026-06-01T00:00:00"
              oid3 "Exam week" "2026-06-30T00:00:00" "mrodriguez" None
              sample_world).2)) ∧
  store_ok
    (announcements
       (db (@update_announcement sample_libraries
              "65a000000000000000000002" "Exam week" "2026-06-30T00:00:00"
              "mrodriguez" None sample_world).2)) ∧
  store_ok
    (announcements
       (db (@delete_announcement sample_libraries
              "65a000000000000000000002" "mrodriguez" sample_world).2)).
Proof.
  split; [exact sample_store_ok|].
  exact (@writes_keep_identifiers_unique sample_libraries
           "2026-06-01T00:00:00" oid3 "65a000000000000000000002"
           "Exam week" "2026-06-30T00:00:00" "mrodriguez" None sample_world
           sample_store_ok).
Defined.

Lemma update_twice_is_update_once_witness :
  ∃ r w1,
    @update_announcement sample_libraries "65a000000000000000000002"
      "Science fair moved" "2027-01-31T18:00:00" "mrodriguez" None
      sample_world = (Return r, w1) ∧
    (@update_announcement sample_libraries "65a000000000000000000002"
       "Science fair moved" "2027-01-31T18:00:00" "mrodriguez" None w1).1
    = Return r ∧
    db (@update_announcement sample_libraries "65a000000000000000000002"
          "Science fair moved" "2027-01-31T18:00:00" "mrodriguez" None w1).2
    = db w1.
Proof.
  destruct (@update_announcement sample_libraries "65a000000000000000000002"
              "Science fair moved" "2027-01-31T18:00:00" "mrodriguez" None
              sample_world) as [[r|e] w1] eqn:Hrun;
    [|vm_compute in Hrun; discriminate Hrun].
  exists r, w1. split; [reflexivity|].
  exact (@update_twice_is_update_once sample_libraries _ _ _ _ _ _ _ _ Hrun).
Defined.

Lemma create_then_delete_restores_witness :
  ∃ r w1,
    @create_announcement sample_libraries "2026-06-01T00:00:00" oid3
      "Exam week" "2026-06-30T00:00:00" "mrodriguez" None sample_world
    = (Return r, w1) ∧
    r !! "_id" = Some (VStr "65a000000000000000000003") ∧
    @ObjectId_of_str sample_libraries "65a000000000000000000003"
    = Some oid3 ∧
    (@delete_announcement sample_libraries "65a000000000000000000003"
       "mrodriguez" w1).1
    = Return {[ "message" := VStr "Announcement deleted successfully" ]} ∧
    db (@delete_announcement sample_libraries "65a000000000000000000003"
          "mrodriguez" w1).2
    = db sample_world.
Proof.
  destruct (@create_announcement sample_libraries "2026-06-01T00:00:00" oid3
              "Exam week" "2026-06-30T00:00:00" "mrodriguez" None
              sample_world) as [[r|e] w1] eqn:Hrun;
    [|vm_compute in Hrun; discriminate Hrun].
  exists r, w1. split; [reflexivity|].
  assert (r !! "_id" = Some (VStr "65a000000000000000000003")) as Hid.
  { vm_compute in Hrun. injection Hrun as <- _. by_running. }
  split; [exact Hid|]. split; [by_running|].
  exact (@create_then_delete_restores sample_libraries _ _ _ _ _ _ _ _ _ _
           Hrun Hid eq_refl).
Defined.

Lemma delete_twice_not_found_witness :
  NoDup (ids (announcements (db sample_world))) ∧
  ∃ r w1,
    @delete_announcement sample_libraries "65a000000000000000000002"
      "mrodriguez" sample_world = (Return r, w1) ∧
    (@delete_announcement sample_libraries "65a000000000000000000002"
       "mrodriguez" w1).1
    = Raise (HTTPException 404 "Announcement not found") ∧
    db (@delete_announcement sample_libraries "65a000000000000000000002"
          "mrodriguez" w1).2
    = db w1.
Proof.
  split; [exact sample_ids_unique|].
  destruct (@delete_announcement sample_libraries "65a000000000000000000002"
              "mrodriguez" sample_world) as [[r|e] w1] eqn:Hrun;
    [|vm_compute in Hrun; discriminate Hrun].
  exists r, w1. split; [reflexivity|].
  exact (@delete_twice_not_found sample_libraries _ _ _ _ _
           sample_ids_unique Hrun).
Defined.

Lemma update_then_list_all_witness :
  Forall has_id (announcements (db sample_world)) ∧
  ∃ r w1,
    @update_announcement sample_libraries "65a000000000000000000002"
      "Science fair moved" "2027-01-31T18:00:00" "mrodriguez" None
      sample_world = (Return r, w1) ∧
    ∃ out, (get_all_announcements w1).1 = Return out ∧ r ∈ out.
Proof.
  split; [exact sample_world_has_ids|].
  destruct (@update_announcement sample_libraries "65a000000000000000000002"
              "Science fair moved" "2027-01-31T18:00:00" "mrodriguez" None
              sample_world) as [[r|e] w1] eqn:Hrun;
    [|vm_compute in Hrun; discriminate Hrun].
  exists r, w1. split; [reflexivity|].
  exact (@update_then_list_all sample_libraries _ _ _ _ _ _ _ _
           sample_world_has_ids Hrun).
Defined.

Lemma created_listed_while_in_range_witness :
  Forall has_id (announcements (db sample_world)) ∧
  ∃ r w1,
    @create_announcement sample_libraries "2026-06-01T00:00:00" oid3
      "Exam week" "2026-06-30T00:00:00" "mrodriguez"
      (Some "2026-06-15T00:00:00") sample_world
    = (Return r, w1) ∧
    ∃ out,
      (get_active_announcements "2026-06-20T08:00:00" w1).1 = Return out ∧
      (r ∈ out ↔
       str_le "2026-06-20T08:00:00" "2026-06-30T00:00:00" ∧
       (Some "2026-06-15T00:00:00" = None ∨
        ∃ s, Some "2026-06-15T00:00:00" = Some s ∧
             str_le s "2026-06-20T08:00:00")).
Proof.
  split; [exact sample_world_has_ids|].
  destruct (@create_announcement sample_libraries "2026-06-01T00:00:00" oid3
              "Exam week" "2026-06-30T00:00:00" "mrodriguez"
              (Some "2026-06-15T00:00:00") sample_world)
    as [[r|e] w1] eqn:Hrun; [|vm_compute in Hrun; discriminate Hrun].
  exists r, w1. split; [reflexivity|].
  exact (@created_listed_while_in_range sample_libraries _ _ _ _ _ _ _ _ _
           "2026-06-20T08:00:00" sample_world_has_ids Hrun).
Defined.

Lemma falsy_start_date_is_active_at_once_witness :
  Forall has_id (announcements (db sample_world)) ∧
  truthy_str (Some "") = false ∧
  ∃ r w1,
    @create_announcement sample_libraries "2026-06-01T00:00:00" oid3
      "Exam week" "2026-06-30T00:00:00" "mrodriguez" (Some "") sample_world
    = (Return r, w1) ∧
    ∃ out,
      (get_active_announcements "2026-06-20T08:00:00" w1).1 = Return out ∧
      (r ∈ out ↔ str_le "2026-06-20T08:00:00" "2026-06-30T00:00:00").
Proof.
  split; [exact sample_world_has_ids|]. split; [reflexivity|].
  destruct (@create_announcement sample_libraries "2026-06-01T00:00:00" oid3
              "Exam week" "2026-06-30T00:00:00" "mrodriguez" (Some "")
              sample_world)
    as [[r|e] w1] eqn:Hrun; [|vm_compute in Hrun; discriminate Hrun].
  exists r, w1. split; [reflexivity|].
  exact (@falsy_start_date_is_active_at_once sample_libraries _ _ _ _ _
           (Some "") _ _ _ "2026-06-20T08:00:00" sample_world_has_ids
           eq_refl Hrun).
Defined.

Lemma active_period_is_contiguous_witness :
  matches (active_filter "2026-02-01T00:00:00") sample_new = true ∧
  matches (active_filter "2026-11-01T00:00:00") sample_new = true ∧
  str_le "2026-02-01T00:00:00" "2026-06-01T00:00:00" ∧
  str_le "2026-06-01T00:00:00" "2026-11-01T00:00:00" ∧
  matches (active_filter "2026-06-01T00:00:00") sample_new = true.
Proof.
  assert (matches (active_filter "2026-02-01T00:00:00") sample_new = true)
    as H1 by by_running.
  assert (matches (active_filter "2026-11-01T00:00:00") sample_new = true)
    as H2 by by_running.
  assert (str_le "2026-02-01T00:00:00" "2026-06-01T00:00:00")
    as H3 by by_running.
  assert (str_le "2026-06-01T00:00:00" "2026-11-01T00:00:00")
    as H4 by by_running.
  split; [exact H1|]. split; [exact H2|].
  split; [exact H3|]. split; [exact H4|].
  exact (active_period_is_contiguous _ _ _ _ H1 H2 H3 H4).
Defined.

Lemma start_after_end_never_active_witness :
  ¬ str_le "2026-09-01T00:00:00" "2026-03-01T00:00:00" ∧
  matches (active_filter "2026-06-01T00:00:00")
    (<["start_date" := VStr "2026-09-01T00:00:00"]>
       (<["end_date" := VStr "2026-03-01T00:00:00"]> sample_new))
  = false.
Proof.
  assert (¬ str_le "2026-09-01T00:00:00" "2026-03-01T00:00:00") as Hse.
  { intros Hle. vm_compute in Hle. discriminate Hle. }
  split; [exact Hse|].
  apply (start_after_end_never_active _ "2026-09-01T00:00:00"
           "2026-03-01T00:00:00"); [by_running | by_running | exact Hse].
Defined.

Lemma active_is_part_of_all_witness :
  Forall has_id (announcements (db sample_world)) ∧
  ∃ act all,
    (get_active_announcements "2026-06-01T00:00:00" sample_world).1
    = Return act ∧
    (get_all_announcements sample_world).1 = Return all ∧
    (∀ a, a ∈ act → a ∈ all) ∧
    act `sublist_of` (with_str_id <$> announcements (db sample_world)).
Proof.
  split; [exact sample_world_has_ids|].
  exact (active_is_part_of_all "2026-06-01T00:00:00" sample_world
           sample_world_has_ids).
Defined.

Lemma replace_Z_leaves_no_Z_witness :
  has_Z "2026-06-30T00:00:00" = false ∧
  replace_Z "2026-06-30T00:00:00" = "2026-06-30T00:00:00" ∧
  has_Z (replace_Z "2026-06-30T00:00:00Z") = false.
Proof.
  split; [reflexivity|]. split.
  - by apply (replace_Z_leaves_no_Z "2026-06-30T00:00:00").
  - apply (replace_Z_leaves_no_Z "2026-06-30T00:00:00Z").
Defined.
